(** * Coffee-shop API: a shallow embedding of [backend/src/api.py]

    The request handlers of the Flask application are embedded as Rocq
    functions over an explicit record store.  Python values that travel
    through the handlers are JSON values; Python exceptions are the
    [Raise] branch of a small error monad; Flask's [abort], [jsonify] and
    error-handler dispatch are written out.

    JSON numbers are modelled as integers ([Z]); floating-point literals
    are outside the model.  Strings are sequences of code points below
    256, one [ascii] per code point. *)

From Stdlib Require Import ZArith List String Ascii Bool Lia.
From Stdlib Require Import DecimalString DecimalZ DecimalPos DecimalFacts.
Import ListNotations.

Local Open Scope string_scope.
Local Open Scope Z_scope.

Set Warnings "-register-all".

(** ** JSON values (what [request.get_json()] and [json.loads] produce) *)

Inductive json : Type :=
| JNull
| JBool (b : bool)
| JNum (n : Z)
| JStr (s : string)
| JList (l : list json)
| JObj (fields : list (string * json)).

(** ** Python exceptions and the error monad *)

(** Modelled from the spec: an [AuthError] of [auth/auth.py] carries a
    status code and a description (the [error] dictionary's entry). *)
Record AuthError : Type := mkAuthError {
  status_code : Z;
  description : string
}.

Inductive exn : Type :=
| AttributeError
| TypeError
| ValueError
| KeyError
| IndexError
| JSONDecodeError
| PersistenceError
| HTTPException (code : Z)
| AuthErrorExn (e : AuthError).

Inductive result (A : Type) : Type :=
| Ok (a : A)
| Raise (e : exn).

Arguments Ok {A} a.
Arguments Raise {A} e.

Definition bind {A B : Type} (m : result A) (k : A -> result B) : result B :=
  match m with
  | Ok a => k a
  | Raise e => Raise e
  end.

Notation "x <- m ;; k" := (bind m (fun x => k))
  (at level 61, m at next level, right associativity).

Fixpoint mapM {A B : Type} (f : A -> result B) (l : list A) : result (list B) :=
  match l with
  | [] => Ok []
  | x :: rest =>
      y <- f x ;;
      ys <- mapM f rest ;;
      Ok (y :: ys)
  end.

(** ** Python primitives used by the handlers *)

Module Py.

(** Truth value of a Python object ([if x:], [not x]). *)
Definition truthy (v : json) : bool :=
  match v with
  | JNull => false
  | JBool b => b
  | JNum n => negb (n =? 0)
  | JStr s => match s with EmptyString => false | String _ _ => true end
  | JList l => match l with [] => false | _ :: _ => true end
  | JObj fields => match fields with [] => false | _ :: _ => true end
  end.

Fixpoint lookup (key : string) (fields : list (string * json)) : option json :=
  match fields with
  | [] => None
  | (k, v) :: rest => if String.eqb k key then Some v else lookup key rest
  end.

(** [v.get(key, None)]: only a dict has the method. *)
Definition get (v : json) (key : string) : result json :=
  match v with
  | JObj fields =>
      match lookup key fields with
      | Some x => Ok x
      | None => Ok JNull
      end
  | _ => Raise AttributeError
  end.

(** [d[key] = v] on a dict's items: an existing key keeps its place. *)
Fixpoint setitem (fields : list (string * json)) (key : string) (v : json)
  : list (string * json) :=
  match fields with
  | [] => [(key, v)]
  | (k, x) :: rest =>
      if String.eqb k key then (k, v) :: rest
      else (k, x) :: setitem rest key v
  end.

(** [isinstance(v, list)] *)
Definition isinstance_list (v : json) : bool :=
  match v with
  | JList _ => true
  | _ => false
  end.

(** [enumerate(l)]: the pairs [(index, element)]. *)
Fixpoint enumerate_from (start : Z) (l : list json) : list (Z * json) :=
  match l with
  | [] => []
  | x :: rest => (start, x) :: enumerate_from (start + 1) rest
  end.

Definition enumerate (l : list json) : list (Z * json) := enumerate_from 0 l.

(** What stands between the brackets of a subscription [x[i]]. *)
Inductive index : Type :=
| IntIndex (n : Z)
| TupleIndex (t : Z * json).

(** [l[i]] for a list [l]: integers index it (negative ones from the
    end), anything else is a [TypeError]. *)
Definition list_getitem (l : list json) (i : index) : result json :=
  match i with
  | IntIndex n =>
      let len := Z.of_nat (List.length l) in
      let k := if n <? 0 then n + len else n in
      if (0 <=? k) && (k <? len)
      then match nth_error l (Z.to_nat k) with
           | Some x => Ok x
           | None => Raise IndexError
           end
      else Raise IndexError
  | TupleIndex _ => Raise TypeError
  end.

(** [s[i]] for a [str]: a one-character [str]. *)
Definition str_getitem (s : string) (i : index) : result string :=
  match i with
  | IntIndex n =>
      let len := Z.of_nat (String.length s) in
      let k := if n <? 0 then n + len else n in
      if (0 <=? k) && (k <? len)
      then match String.get (Z.to_nat k) s with
           | Some c => Ok (String c EmptyString)
           | None => Raise IndexError
           end
      else Raise IndexError
  | TupleIndex _ => Raise TypeError
  end.

(** [s.attr = v] for a [str] [s]: a [str] takes no attribute. *)
Definition str_setattr (s : string) (attr : string) (v : json) : result unit :=
  Raise AttributeError.

(** A [for] loop whose body may raise; [acc] is what the body updates. *)
Fixpoint for_each {A S : Type} (body : S -> A -> result S) (l : list A)
  (acc : S) : result S :=
  match l with
  | [] => Ok acc
  | x :: rest =>
      acc' <- body acc x ;;
      for_each body rest acc'
  end.

(** Whitespace in the sense of [int(str)] (code points below 256). *)
Definition is_space (c : ascii) : bool :=
  let n := Z.of_nat (nat_of_ascii c) in
  ((9 <=? n) && (n <=? 13)) || ((28 <=? n) && (n <=? 32))
  || (n =? 133) || (n =? 160).

Definition digit_value (c : ascii) : option Z :=
  let n := Z.of_nat (nat_of_ascii c) in
  if (48 <=? n) && (n <=? 57) then Some (n - 48) else None.

Fixpoint lstrip (s : string) : string :=
  match s with
  | String c rest => if is_space c then lstrip rest else s
  | EmptyString => EmptyString
  end.

Fixpoint all_space (s : string) : bool :=
  match s with
  | String c rest => is_space c && all_space rest
  | EmptyString => true
  end.

(** Where the scanner of a decimal literal stands. *)
Inductive scan : Type :=
| NeedDigit          (* at the start, or just after an underscore *)
| AfterDigit.

(** Digits with single underscores between them, then optional
    whitespace up to the end of the text. *)
Fixpoint int_digits (s : string) (acc : Z) (st : scan) : option Z :=
  match s with
  | EmptyString =>
      match st with
      | AfterDigit => Some acc
      | NeedDigit => None
      end
  | String c rest =>
      match digit_value c with
      | Some d => int_digits rest (10 * acc + d) AfterDigit
      | None =>
          match st with
          | NeedDigit => None
          | AfterDigit =>
              if Ascii.eqb c "_" then int_digits rest acc NeedDigit
              else if all_space s then Some acc
              else None
          end
      end
  end.

(** [int(s)] for a [str] argument, base ten. *)
Definition int_of_str (s : string) : option Z :=
  match lstrip s with
  | String "+" rest => int_digits rest 0 NeedDigit
  | String "-" rest => option_map Z.opp (int_digits rest 0 NeedDigit)
  | t => int_digits t 0 NeedDigit
  end.

(** [int(v)]: a [str] is parsed ([ValueError] when it is no literal),
    a number or a [bool] converts, anything else is a [TypeError]. *)
Definition int (v : json) : result Z :=
  match v with
  | JNum n => Ok n
  | JBool b => Ok (if b then 1 else 0)
  | JStr s =>
      match int_of_str s with
      | Some n => Ok n
      | None => Raise ValueError
      end
  | JNull | JList _ | JObj _ => Raise TypeError
  end.

End Py.

(** ** The [json] module: [json.dumps] and [json.loads] *)

Module Json.

(** The double-quote character. *)
Definition dquote : ascii := "034"%char.

Definition hex_digit (n : Z) : ascii :=
  ascii_of_nat (Z.to_nat (if n <? 10 then 48 + n else 87 + n)).

(** One code point of a string literal, as [ensure_ascii] writes it. *)
Definition escape_char (c : ascii) : string :=
  let n := Z.of_nat (nat_of_ascii c) in
  if n =? 34 then String "\" (String dquote EmptyString)
  else if n =? 92 then "\\"
  else if n =? 10 then "\n"
  else if n =? 13 then "\r"
  else if n =? 9 then "\t"
  else if n =? 8 then "\b"
  else if n =? 12 then "\f"
  else if (32 <=? n) && (n <=? 126) then String c EmptyString
  else String "\" (String "u" (String "0" (String "0"
         (String (hex_digit (n / 16))
            (String (hex_digit (n mod 16)) EmptyString))))).

Fixpoint escape (s : string) : string :=
  match s with
  | EmptyString => EmptyString
  | String c rest => escape_char c ++ escape rest
  end.

Definition quote (s : string) : string :=
  String dquote (escape s ++ String dquote EmptyString).

Definition string_of_Z (n : Z) : string :=
  NilEmpty.string_of_int (Z.to_int n).

(** [sep.join(parts)] *)
Fixpoint join (sep : string) (parts : list string) : string :=
  match parts with
  | [] => EmptyString
  | [x] => x
  | x :: rest => x ++ sep ++ join sep rest
  end.

(** [json.dumps(v)] with the default separators [", "] and [": "]. *)
Fixpoint dumps (v : json) : string :=
  match v with
  | JNull => "null"
  | JBool true => "true"
  | JBool false => "false"
  | JNum n => string_of_Z n
  | JStr s => quote s
  | JList l => "[" ++ join ", " (map dumps l) ++ "]"
  | JObj fields =>
      "{" ++ join ", " (map (fun kv => quote (fst kv) ++ ": " ++ dumps (snd kv))
                          fields) ++ "}"
  end.

(** *** The decoder *)

Definition is_ws (c : ascii) : bool :=
  let n := Z.of_nat (nat_of_ascii c) in
  (n =? 32) || (n =? 9) || (n =? 10) || (n =? 13).

Fixpoint skip_ws (s : string) : string :=
  match s with
  | String c rest => if is_ws c then skip_ws rest else s
  | EmptyString => EmptyString
  end.

Definition hex_value (c : ascii) : option Z :=
  let n := Z.of_nat (nat_of_ascii c) in
  if (48 <=? n) && (n <=? 57) then Some (n - 48)
  else if (97 <=? n) && (n <=? 102) then Some (n - 87)
  else if (65 <=? n) && (n <=? 70) then Some (n - 55)
  else None.

(** The body of a string literal, after the opening quote: the decoded
    text and what follows the closing quote. *)
Fixpoint scan_string (s : string) : option (string * string) :=
  match s with
  | EmptyString => None
  | String "034" rest => Some (EmptyString, rest)
  | String "\" (String e rest) =>
      let plain (c : ascii) (rest : string) :=
        match scan_string rest with
        | Some (t, rest') => Some (String c t, rest')
        | None => None
        end in
      match e with
      | "034"%char => plain dquote rest
      | "\"%char => plain "\"%char rest
      | "/"%char => plain "/"%char rest
      | "b"%char => plain (ascii_of_nat 8) rest
      | "f"%char => plain (ascii_of_nat 12) rest
      | "n"%char => plain (ascii_of_nat 10) rest
      | "r"%char => plain (ascii_of_nat 13) rest
      | "t"%char => plain (ascii_of_nat 9) rest
      | "u"%char =>
          match rest with
          | String a (String b (String c (String d rest'))) =>
              match hex_value a, hex_value b, hex_value c, hex_value d with
              | Some 0, Some 0, Some h, Some l =>
                  match scan_string rest' with
                  | Some (t, rest'') =>
                      Some (String (ascii_of_nat (Z.to_nat (16 * h + l))) t,
                            rest'')
                  | None => None
                  end
              | _, _, _, _ => None
              end
          | _ => None
          end
      | _ => None
      end
  | String c rest =>
      if Z.of_nat (nat_of_ascii c) <? 32 then None
      else
        match scan_string rest with
        | Some (t, rest') => Some (String c t, rest')
        | None => None
        end
  end.

Fixpoint scan_digits (s : string) (acc : Z) : Z * string :=
  match s with
  | String c rest =>
      match Py.digit_value c with
      | Some d => scan_digits rest (10 * acc + d)
      | None => (acc, s)
      end
  | EmptyString => (acc, s)
  end.

(** Does a fraction or an exponent follow?  Then the literal is a float. *)
Definition starts_fraction (s : string) : bool :=
  match s with
  | String c _ => Ascii.eqb c "." || Ascii.eqb c "e" || Ascii.eqb c "E"
  | EmptyString => false
  end.

(** An integer literal: an optional minus sign, then a single zero or a
    non-zero digit followed by digits. *)
Definition scan_number (s : string) : option (Z * string) :=
  let (neg, t) :=
    match s with
    | String "-" t => (true, t)
    | _ => (false, s)
    end in
  match t with
  | String c rest =>
      match Py.digit_value c with
      | Some d =>
          let (n, rest') := if d =? 0 then (0, rest) else scan_digits rest d in
          if starts_fraction rest' then None
          else Some (if neg then - n else n, rest')
      | None => None
      end
  | EmptyString => None
  end.

(** Recursive descent.  [fuel] bounds the depth of the calls; [loads]
    below supplies enough of it for the whole text. *)
Fixpoint parse_value (fuel : nat) (s : string) : option (json * string) :=
  match fuel with
  | O => None
  | S fuel' =>
      match skip_ws s with
      | String "n" (String "u" (String "l" (String "l" rest))) =>
          Some (JNull, rest)
      | String "t" (String "r" (String "u" (String "e" rest))) =>
          Some (JBool true, rest)
      | String "f" (String "a" (String "l" (String "s" (String "e" rest)))) =>
          Some (JBool false, rest)
      | String "034" rest =>
          match scan_string rest with
          | Some (t, rest') => Some (JStr t, rest')
          | None => None
          end
      | String "[" rest =>
          match skip_ws rest with
          | String "]" rest' => Some (JList [], rest')
          | _ =>
              match parse_items fuel' rest with
              | Some (l, rest') => Some (JList l, rest')
              | None => None
              end
          end
      | String "{" rest =>
          match skip_ws rest with
          | String "}" rest' => Some (JObj [], rest')
          | _ =>
              match parse_members fuel' [] rest with
              | Some (fields, rest') => Some (JObj fields, rest')
              | None => None
              end
          end
      | t =>
          match scan_number t with
          | Some (n, rest) => Some (JNum n, rest)
          | None => None
          end
      end
  end

with parse_items (fuel : nat) (s : string) : option (list json * string) :=
  match fuel with
  | O => None
  | S fuel' =>
      match parse_value fuel' s with
      | Some (v, rest) =>
          match skip_ws rest with
          | String "," rest' =>
              match parse_items fuel' rest' with
              | Some (l, rest'') => Some (v :: l, rest'')
              | None => None
              end
          | String "]" rest' => Some ([v], rest')
          | _ => None
          end
      | None => None
      end
  end

with parse_members (fuel : nat) (acc : list (string * json)) (s : string)
  : option (list (string * json) * string) :=
  match fuel with
  | O => None
  | S fuel' =>
      match skip_ws s with
      | String "034" rest =>
          match scan_string rest with
          | Some (key, rest') =>
              match skip_ws rest' with
              | String ":" rest'' =>
                  match parse_value fuel' rest'' with
                  | Some (v, rest3) =>
                      let acc' := Py.setitem acc key v in
                      match skip_ws rest3 with
                      | String "," rest4 => parse_members fuel' acc' rest4
                      | String "}" rest4 => Some (acc', rest4)
                      | _ => None
                      end
                  | None => None
                  end
              | _ => None
              end
          | None => None
          end
      | _ => None
      end
  end.

(** [json.loads(s)]; [None] stands for [JSONDecodeError]. *)
Definition loads (s : string) : option json :=
  match parse_value (2 * String.length s + 2) s with
  | Some (v, rest) =>
      match skip_ws rest with
      | EmptyString => Some v
      | String _ _ => None
      end
  | None => None
  end.

End Json.

(** ** [check_drink_body] *)

(** The [for r in recipe] loop of [check_drink_body]; [Ok true] stands
    for falling out of the loop, [Ok false] for [return False]. *)
Fixpoint check_recipe_steps (recipe : list json) : result bool :=
  match recipe with
  | [] => Ok true
  | r :: rest =>
      color <- Py.get r "color" ;;
      name <- Py.get r "name" ;;
      parts <- Py.get r "parts" ;;
      if negb (Py.truthy color) || negb (Py.truthy name)
         || negb (Py.truthy parts)
      then Ok false
      else
        match Py.int parts with
        | Raise ValueError => Ok false
        | Raise e => Raise e
        | Ok _ => check_recipe_steps rest
        end
  end.

Definition check_drink_body (body : json) : result bool :=
  if negb (Py.truthy body) then Ok false
  else
    title <- Py.get body "title" ;;
    recipe <- Py.get body "recipe" ;;
    match recipe with
    | JList steps => check_recipe_steps steps
    | _ => Ok false
    end.

(** ** The [Drink] model and the record store *)

Module Drink.

(** Modelled from the spec: the [Drink] model of [database/models.py],
    which is not part of the sources at hand.  A drink has an integer
    primary key, a title and a recipe held as encoded text.  [title] is
    the Python value of the attribute: [post_drink] assigns text,
    [patch_drink] assigns the value of the request body as it is. *)
Record t : Type := mk {
  id : Z;
  title : json;
  recipe : string
}.

(** Modelled from the spec: the Recipe Codec's [decode] of the missing
    model, the inverse of the [json.dumps] that [post_drink] applies. *)
Definition decode (text : string) : result (list json) :=
  match Json.loads text with
  | Some (JList steps) => Ok steps
  | Some _ => Raise TypeError
  | None => Raise JSONDecodeError
  end.

(** One step restricted to the entries [keys], each of which it must have. *)
Definition step_view (keys : list string) (step : json) : result json :=
  match step with
  | JObj fields =>
      entries <- mapM (fun k =>
                         match Py.lookup k fields with
                         | Some v => Ok (k, v)
                         | None => Raise KeyError
                         end) keys ;;
      Ok (JObj entries)
  | _ => Raise TypeError
  end.

(** Modelled from the spec: [shortView(steps)], the sequence of
    [{color, name}], parts omitted. *)
Definition shortView (steps : list json) : result (list json) :=
  mapM (step_view ["color"; "name"]) steps.

(** Modelled from the spec: [longView(steps)], the sequence of
    [{color, name, parts}]. *)
Definition longView (steps : list json) : result (list json) :=
  mapM (step_view ["color"; "name"; "parts"]) steps.

(** Modelled from the spec: [drink.short()] of the missing model. *)
Definition short (d : t) : result json :=
  steps <- decode (recipe d) ;;
  view <- shortView steps ;;
  Ok (JObj [("id", JNum (id d)); ("title", title d); ("recipe", JList view)]).

(** Modelled from the spec: [drink.long()] of the missing model. *)
Definition long (d : t) : result json :=
  steps <- decode (recipe d) ;;
  view <- longView steps ;;
  Ok (JObj [("id", JNum (id d)); ("title", title d); ("recipe", JList view)]).

End Drink.

(** The table of drinks.  [available] is cleared when the backing
    database cannot be reached: every operation then fails. *)
Record Store : Type := mkStore {
  rows : list Drink.t;
  next_id : Z;
  available : bool
}.

Module Db.

(** Modelled from the spec: [listAll], that is [Drink.query.all()]. *)
Definition query_all (st : Store) : result (list Drink.t) :=
  if available st then Ok (rows st) else Raise PersistenceError.

(** Modelled from the spec: [getById], that is
    [Drink.query.filter(Drink.id == id).one_or_none()]. *)
Definition one_or_none (st : Store) (id : Z) : result (option Drink.t) :=
  if available st
  then Ok (find (fun d => Drink.id d =? id) (rows st))
  else Raise PersistenceError.

(** Modelled from the spec: [create], that is [Drink(title, recipe)]
    followed by [drink.insert()]; the store assigns the new id. *)
Definition insert (st : Store) (title : json) (recipe : string)
  : result (Store * Drink.t) :=
  if available st
  then
    let d := Drink.mk (next_id st) title recipe in
    Ok (mkStore (rows st ++ [d]) (next_id st + 1) true, d)
  else Raise PersistenceError.

(** The row that was fetched under the id of [d] (the first that
    carries the id) takes the fields of [d]. *)
Fixpoint replace_row (rows : list Drink.t) (d : Drink.t) : list Drink.t :=
  match rows with
  | [] => []
  | r :: rest =>
      if Drink.id r =? Drink.id d then d :: rest
      else r :: replace_row rest d
  end.

(** The row that was fetched under the id of [d] goes. *)
Fixpoint remove_row (rows : list Drink.t) (d : Drink.t) : list Drink.t :=
  match rows with
  | [] => []
  | r :: rest =>
      if Drink.id r =? Drink.id d then rest
      else r :: remove_row rest d
  end.

(** Modelled from the spec: [update], that is [drink.update()]: the
    in-place mutation of an already fetched record is persisted. *)
Definition update (st : Store) (d : Drink.t) : result (Store * Drink.t) :=
  if available st
  then Ok (mkStore (replace_row (rows st) d) (next_id st) true, d)
  else Raise PersistenceError.

(** Modelled from the spec: [delete], that is [drink.delete()]. *)
Definition delete (st : Store) (d : Drink.t) : result Store :=
  if available st
  then Ok (mkStore (remove_row (rows st) d) (next_id st) true)
  else Raise PersistenceError.

End Db.

(** ** Flask: requests, responses, [jsonify], [abort] *)

Inductive Route : Type :=
| GET_drinks
| GET_drinks_detail
| POST_drinks
| PATCH_drinks (id : Z)
| DELETE_drinks (id : Z).

Record Request : Type := mkRequest {
  route : Route;
  authorization : option string;   (* the Authorization header *)
  get_json : json                  (* the parsed body, [JNull] for [None] *)
}.

(** [data] is [None] for a body that is not JSON (Werkzeug's own
    error page). *)
Record Response : Type := mkResponse {
  status : Z;
  data : option json
}.

(** [jsonify(v)]: a JSON response; the status is 200 unless the view
    returns a pair. *)
Definition jsonify (v : json) : Response := mkResponse 200 (Some v).

(** [return response, code] *)
Definition with_status (r : Response) (code : Z) : Response :=
  mkResponse code (data r).

Definition abort {A : Type} (code : Z) : result A := Raise (HTTPException code).

(** A view function: it reads the store and the request, and leaves a
    store and either a response or an exception. *)
Definition View : Type := Store -> Request -> Store * result Response.

(** ** The error handlers *)

(** [@app.errorhandler(422)] *)
Definition unprocessable : Response :=
  with_status
    (jsonify (JObj [("success", JBool false); ("error", JNum 422);
                    ("message", JStr "unprocessable")]))
    422.

(** [@app.errorhandler(404)]; the source names this function
    [unprocessable] a second time. *)
Definition unprocessable_404 : Response :=
  with_status
    (jsonify (JObj [("success", JBool false); ("error", JNum 404);
                    ("message", JStr "resource not found")]))
    404.

(** [@app.errorhandler(AuthError)] *)
Definition auth_error (error : AuthError) : Response :=
  let message := description error in
  let status := status_code error in
  with_status
    (jsonify (JObj [("success", JBool false); ("error", JNum status);
                    ("message", JStr message)]))
    status.

(** [@app.errorhandler(500)]: the view returns the response alone. *)
Definition server_error : Response :=
  jsonify (JObj [("success", JBool false); ("error", JNum 500);
                 ("message", JStr "Something went wrong.")]).

(** Flask's answer to an exception that leaves a view: a registered
    handler for the code or the class; an [HTTPException] without one
    answers with its own page; anything else is an internal server
    error and goes to the handler of 500. *)
Definition handle_exception (e : exn) : Response :=
  match e with
  | HTTPException code =>
      if code =? 422 then unprocessable
      else if code =? 404 then unprocessable_404
      else if code =? 500 then server_error
      else mkResponse code None
  | AuthErrorExn error => auth_error error
  | _ => server_error
  end.

(** ** The views *)

Section Api.

(** The Authorization Gate of [auth/auth.py], which is not part of the
    sources at hand: from the Authorization header and the permission
    a route asks for, the decoded token or an [AuthError]. *)
Variable requirePermission : option string -> string -> AuthError + json.

(** Modelled from the spec: the decorator [@requires_auth(permission)]
    runs the gate and calls the view with the payload only on success. *)
Definition requires_auth (permission : string) (f : json -> View) : View :=
  fun st req =>
    match requirePermission (authorization req) permission with
    | inl error => (st, Raise (AuthErrorExn error))
    | inr payload => f payload st req
    end.

(** [get_drinks].  [Drink.query.all()] returns a list, so the test
    [drinks is None] of the source never holds. *)
Definition get_drinks : View :=
  fun st _ =>
    match Db.query_all st with
    | Raise _ => (st, abort 500)
    | Ok drinks =>
        (st,
         drinks <- mapM Drink.short drinks ;;
         Ok (jsonify (JObj [("success", JBool true);
                            ("drinks", JList drinks)])))
    end.

Definition get_drinks_details (payload : json) : View :=
  fun st _ =>
    match Db.query_all st with
    | Raise _ => (st, abort 500)
    | Ok drinks =>
        (st,
         drinks <- mapM Drink.long drinks ;;
         Ok (jsonify (JObj [("success", JBool true);
                            ("drinks", JList drinks)])))
    end.

Definition post_drink (payload : json) : View :=
  fun st req =>
    let body := get_json req in
    match check_drink_body body with
    | Raise e => (st, Raise e)
    | Ok false => (st, abort 400)
    | Ok true =>
        match (t <- Py.get body "title" ;;
               r <- Py.get body "recipe" ;;
               Ok (JStr (Json.dumps t), Json.dumps r)) with
        | Raise e => (st, Raise e)
        | Ok (title, recipe) =>
            match Db.insert st title recipe with
            | Raise _ => (st, abort 422)
            | Ok (st', drink) =>
                (st',
                 long <- Drink.long drink ;;
                 Ok (jsonify (JObj [("success", JBool true);
                                    ("drinks", long)])))
            end
        end
    end.

(** One turn of the loop [for i in enumerate(recipe)] of [patch_drink];
    [i] is the pair that [enumerate] yields. *)
Definition patch_step (recipe : list json) (drink : Drink.t) (i : Z * json)
  : result Drink.t :=
  r <- Py.list_getitem recipe (Py.TupleIndex i) ;;
  color <- Py.get r "color" ;;
  _ <- (if Py.truthy color
        then s <- Py.str_getitem (Drink.recipe drink) (Py.TupleIndex i) ;;
             Py.str_setattr s "color" color
        else Ok tt) ;;
  r <- Py.list_getitem recipe (Py.TupleIndex i) ;;
  name <- Py.get r "name" ;;
  _ <- (if Py.truthy name
        then s <- Py.str_getitem (Drink.recipe drink) (Py.TupleIndex i) ;;
             Py.str_setattr s "name" name
        else Ok tt) ;;
  r <- Py.list_getitem recipe (Py.TupleIndex i) ;;
  parts <- Py.get r "parts" ;;
  _ <- (if Py.truthy parts
        then s <- Py.str_getitem (Drink.recipe drink) (Py.TupleIndex i) ;;
             Py.str_setattr s "parts" parts
        else Ok tt) ;;
  Ok drink.

(** Lines 162 to 184 of [patch_drink]: the body's fields are written
    into the fetched drink. *)
Definition patch_fields (body : json) (drink : Drink.t) : result Drink.t :=
  title <- Py.get body "title" ;;
  let drink :=
    if Py.truthy title
    then Drink.mk (Drink.id drink) title (Drink.recipe drink)
    else drink in
  recipe <- Py.get body "recipe" ;;
  if Py.truthy recipe
  then
    match recipe with
    | JList steps =>
        Py.for_each (patch_step steps) (Py.enumerate steps) drink
    | _ => abort 400
    end
  else Ok drink.

Definition patch_drink (payload : json) (id : Z) : View :=
  fun st req =>
    match Db.one_or_none st id with
    | Raise _ => (st, abort 500)
    | Ok None => (st, abort 404)
    | Ok (Some drink) =>
        let body := get_json req in
        if negb (Py.truthy body) then (st, abort 400)
        else
          match patch_fields body drink with
          | Raise e => (st, Raise e)
          | Ok drink =>
              match Db.update st drink with
              | Raise _ => (st, abort 500)
              | Ok (st', drink) =>
                  (st',
                   long <- Drink.long drink ;;
                   Ok (jsonify (JObj [("success", JBool true);
                                      ("drinks", JList [long])])))
              end
          end
    end.

Definition delete_drinks (payload : json) (id : Z) : View :=
  fun st req =>
    match Db.one_or_none st id with
    | Raise _ => (st, abort 500)
    | Ok None => (st, abort 404)
    | Ok (Some drink) =>
        match Db.delete st drink with
        | Raise _ => (st, abort 500)
        | Ok st' =>
            (st',
             Ok (jsonify (JObj [("success", JBool true);
                                ("delete", JNum id)])))
        end
    end.

(** The routing table, with the decorators of each view. *)
Definition view_of (r : Route) : View :=
  match r with
  | GET_drinks => get_drinks
  | GET_drinks_detail => requires_auth "get:drinks-detail" get_drinks_details
  | POST_drinks => requires_auth "post:drinks" post_drink
  | PATCH_drinks id =>
      requires_auth "patch:drinks" (fun payload => patch_drink payload id)
  | DELETE_drinks id =>
      requires_auth "delete:drinks" (fun payload => delete_drinks payload id)
  end.

(** One request from arrival to response: the view runs, and an
    exception that leaves it is answered by [handle_exception]. *)
Definition handle (st : Store) (req : Request) : Store * Response :=
  match view_of (route req) st req with
  | (st', Ok response) => (st', response)
  | (st', Raise e) => (st', handle_exception e)
  end.

End Api.

(** ** Concrete data for examples *)

(** A gate that grants every permission to the bearer of ["Bearer manager"]
    and refuses everybody else. *)
Definition manager_gate (header : option string) (permission : string)
  : AuthError + json :=
  match header with
  | Some h =>
      if String.eqb h "Bearer manager"
      then inr (JObj [("permissions", JList [JStr permission])])
      else inl (mkAuthError 401 "invalid_header")
  | None => inl (mkAuthError 401 "authorization_header_missing")
  end.

Definition empty_store : Store := mkStore [] 1 true.

Definition latte_recipe : json :=
  JList [JObj [("color", JStr "white"); ("name", JStr "milk");
               ("parts", JNum 3)]].

Definition latte_fields : list (string * json) :=
  [("title", JStr "Latte"); ("recipe", latte_recipe)].

Definition latte : json := JObj latte_fields.

Definition manager : option string := Some "Bearer manager".

(** What [manager_gate] hands to the view. *)
Definition granted (permission : string) : json :=
  JObj [("permissions", JList [JStr permission])].

Definition as_manager (r : Route) (body : json) : Request :=
  mkRequest r manager body.

(** The value of [body.get(key)] for a dict with the items [fields]. *)
Definition field (key : string) (fields : list (string * json)) : json :=
  match Py.lookup key fields with
  | Some v => v
  | None => JNull
  end.

(** ** Vocabulary of the statements *)

(** No key occurs twice. *)
Fixpoint distinct (keys : list string) : bool :=
  match keys with
  | [] => true
  | k :: rest => negb (existsb (String.eqb k) rest) && distinct rest
  end.

(** A JSON value as Python holds it: in every dict, at any depth, the
    keys are pairwise distinct. *)
Fixpoint well_formed (v : json) : bool :=
  match v with
  | JList l => forallb well_formed l
  | JObj fields =>
      distinct (map fst fields)
      && forallb (fun kv => well_formed (snd kv)) fields
  | _ => true
  end.


(** [int(v)] returns. *)
Definition int_parseable (v : json) : bool :=
  match Py.int v with
  | Ok _ => true
  | Raise _ => false
  end.

(** The [parts] that [check_drink_body] lets through: true in the sense
    of [if parts:], and accepted by [int]. *)
Definition parts_accepted (v : json) : bool :=
  Py.truthy v && int_parseable v.



(** The exception, if any, that one turn of the loop of
    [check_drink_body] lets escape on the step [r]: a step without
    [.get], or a true [parts] that [int] refuses by type. *)
Definition step_fault (r : json) : option exn :=
  match r with
  | JObj fields =>
      if Py.truthy (field "color" fields) && Py.truthy (field "name" fields)
         && Py.truthy (field "parts" fields)
      then
        match field "parts" fields with
        | JList _ | JObj _ => Some TypeError
        | _ => None
        end
      else None
  | _ => Some AttributeError
  end.

(** A step in short view: the entries [color] and [name], nothing else. *)
Definition short_step (s : json) : Prop :=
  exists color name, s = JObj [("color", color); ("name", name)].

(** A drink in short view. *)
Definition short_drink (d : json) : Prop :=
  exists id title steps,
    d = JObj [("id", JNum id); ("title", title); ("recipe", JList steps)]
    /\ Forall short_step steps.

(** The store after one drink was posted to the empty store. *)
Definition latte_store : Store :=
  fst (handle manager_gate empty_store (as_manager POST_drinks latte)).

(** What may follow an integer literal: the end of the text, or a
    character that neither continues the digits nor starts a fraction. *)
Definition delimited (rest : string) : bool :=
  match rest with
  | EmptyString => true
  | String c _ =>
      match Py.digit_value c with
      | Some _ => false
      | None => negb (Json.starts_fraction rest)
      end
  end.

(** The decimal digits of a positive number start with a digit that is
    not zero. *)
Definition leading (d : Decimal.uint) : bool :=
  match d with
  | Decimal.Nil | Decimal.D0 _ => false
  | _ => true
  end.

(** The first character of a JSON text. *)
Definition head_ok (s : string) : bool :=
  match s with
  | String c _ =>
      match Py.digit_value c with
      | Some _ => true
      | None =>
          existsb (Ascii.eqb c)
            ["n"; "t"; "f"; Json.dquote; "["; "{"; "-"]%char
      end
  | EmptyString => false
  end.

(** One member of a dict as [json.dumps] writes it. *)
Definition member (kv : string * json) : string :=
  (Json.quote (fst kv) ++ ": " ++ Json.dumps (snd kv))%string.

(** What [parse_value] is asked to do for [v]. *)
Definition reads_back (v : json) : Prop :=
  well_formed v = true ->
  forall fuel rest,
    (String.length (Json.dumps v) < fuel)%nat ->
    delimited rest = true ->
    Json.parse_value fuel (Json.dumps v ++ rest) = Some (v, rest).

(** The long view of one step. *)
Definition long_step (r : json) : json :=
  match r with
  | JObj fields =>
      JObj [("color", field "color" fields); ("name", field "name" fields);
            ("parts", field "parts" fields)]
  | _ => JNull
  end.

(** Induction on a JSON value, with the hypothesis for every element of
    a list and every value of a dict. *)
Section JsonInd.
Variable P : json -> Prop.
Hypothesis Hnull : P JNull.
Hypothesis Hbool : forall b, P (JBool b).
Hypothesis Hnum : forall n, P (JNum n).
Hypothesis Hstr : forall s, P (JStr s).
Hypothesis Hlist : forall l, Forall P l -> P (JList l).
Hypothesis Hobj : forall fields, Forall (fun kv => P (snd kv)) fields -> P (JObj fields).

Fixpoint json_nested_ind (v : json) : P v :=
  match v with
  | JNull => Hnull
  | JBool b => Hbool b
  | JNum n => Hnum n
  | JStr s => Hstr s
  | JList l =>
      Hlist l
        ((fix all (l : list json) : Forall P l :=
            match l with
            | [] => Forall_nil P
            | x :: rest => Forall_cons x (json_nested_ind x) (all rest)
            end) l)
  | JObj fields =>
      Hobj fields
        ((fix all (fs : list (string * json))
            : Forall (fun kv => P (snd kv)) fs :=
            match fs with
            | [] => Forall_nil _
            | kv :: rest =>
                Forall_cons kv (json_nested_ind (snd kv)) (all rest)
            end) fields)
  end.
End JsonInd.

(** Evaluates [Py.digit_value] at a literal character. *)
Ltac eval_digit :=
  match goal with
  | |- context [Py.digit_value ?c] =>
      let v := eval vm_compute in (Py.digit_value c) in
      change (Py.digit_value c) with v
  end.

(** ** The rest of the module *)

(** [before_request]: [headers] is the dict that [dict(request.headers)]
    builds; three entries are set and the dict becomes the headers of
    the request. *)
Definition before_request (headers : list (string * json))
  : list (string * json) :=
  let headers := Py.setitem headers "Access-Control-Allow-Origin" (JStr "*") in
  let headers :=
    Py.setitem headers "Access-Control-Allow-Methods"
      (JStr "POST, GET, OPTIONS, PATCH") in
  let headers := Py.setitem headers "Content-Type" (JStr "application/json") in
  headers.

(** The permission that the decorator of a route asks for; GET /drinks
    has no decorator. *)
Definition permission_of (r : Route) : option string :=
  match r with
  | GET_drinks => None
  | GET_drinks_detail => Some "get:drinks-detail"
  | POST_drinks => Some "post:drinks"
  | PATCH_drinks _ => Some "patch:drinks"
  | DELETE_drinks _ => Some "delete:drinks"
  end.

(** A step that the loop of [check_drink_body] passes. *)
Definition valid_step (r : json) : bool :=
  match r with
  | JObj fields =>
      Py.truthy (field "color" fields) && Py.truthy (field "name" fields)
      && parts_accepted (field "parts" fields)
  | _ => false
  end.

(** The ids of the rows, in the order of the table. *)
Definition ids (st : Store) : list Z := map Drink.id (rows st).

(** The ids are a primary key, and the next id to hand out is above
    every id in use. *)
Definition store_ok (st : Store) : Prop :=
  NoDup (ids st) /\ Forall (fun i => i < next_id st) (ids st).

(** A success: status 200 and a body that starts with [success: true]. *)
Definition is_success (r : Response) : Prop :=
  status r = 200
  /\ exists rest, data r = Some (JObj (("success", JBool true) :: rest)).

(** The answer to a request that the gate refused. *)
Definition is_refusal (requirePermission : option string -> string -> AuthError + json)
  (req : Request) (r : Response) : Prop :=
  exists permission error,
    permission_of (route req) = Some permission
    /\ requirePermission (authorization req) permission = inl error
    /\ r = auth_error error.

(** ** Properties *)

(** *** Generic facts about the embedding *)

Lemma handle_authorized requirePermission st r auth body permission f payload :
  view_of requirePermission r = requires_auth requirePermission permission f ->
  requirePermission auth permission = inr payload ->
  handle requirePermission st (mkRequest r auth body) =
  match f payload st (mkRequest r auth body) with
  | (st', Ok response) => (st', response)
  | (st', Raise e) => (st', handle_exception e)
  end.
Proof.
  intros Hview Hgate. unfold handle. cbn [route]. rewrite Hview.
  unfold requires_auth. cbn [authorization]. now rewrite Hgate.
Qed.

Lemma check_recipe_steps_app pre rest :
  check_recipe_steps pre = Ok true ->
  check_recipe_steps (pre ++ rest) = check_recipe_steps rest.
Proof.
  induction pre as [|r pre IH]; intros H; [reflexivity|].
  cbn [app check_recipe_steps] in *.
  destruct (Py.get r "color") as [color|]; cbn [bind] in *; [|discriminate].
  destruct (Py.get r "name") as [name|]; cbn [bind] in *; [|discriminate].
  destruct (Py.get r "parts") as [parts|]; cbn [bind] in *; [|discriminate].
  destruct (negb (Py.truthy color) || negb (Py.truthy name)
            || negb (Py.truthy parts)); [discriminate|].
  destruct (Py.int parts) as [n|e]; [now apply IH|].
  destruct e; discriminate.
Qed.

(** *** [json.loads] after [json.dumps] *)

Lemma app_assoc_s (a b c : string) : ((a ++ b) ++ c = a ++ (b ++ c))%string.
Proof. induction a as [|x a IH]; cbn; [reflexivity|now rewrite IH]. Qed.

(** *** Strings *)

Lemma scan_escape_char c t :
  Json.scan_string (Json.escape_char c ++ t)
  = match Json.scan_string t with
    | Some (u, r) => Some (String c u, r)
    | None => None
    end.
Proof. destruct c as [[] [] [] [] [] [] [] []]; reflexivity. Qed.

Lemma scan_escape s rest :
  Json.scan_string (Json.escape s ++ String Json.dquote rest) = Some (s, rest).
Proof.
  induction s as [|c s IH]; [reflexivity|].
  cbn [Json.escape]. rewrite app_assoc_s, scan_escape_char. now rewrite IH.
Qed.

(** *** Numbers *)

Lemma scan_digits_uint l acc rest :
  delimited rest = true ->
  Json.scan_digits (NilEmpty.string_of_uint l ++ rest) (Z.pos acc)
  = (Z.pos (Pos.of_uint_acc l acc), rest).
Proof.
  intros Hrest. revert acc.
  induction l; intros acc; cbn [NilEmpty.string_of_uint append Pos.of_uint_acc].
  1: { destruct rest as [|c rest]; [reflexivity|]. cbn [Json.scan_digits].
       unfold delimited in Hrest. now destruct (Py.digit_value c). }
  all: cbn [Json.scan_digits]; eval_digit; cbv iota beta; rewrite <- IHl;
    f_equal; lia.
Qed.

Lemma unorm_leading d :
  Decimal.unorm d = Decimal.D0 Decimal.Nil \/ leading (Decimal.unorm d) = true.
Proof.
  induction d; try (right; reflexivity).
  - now left.
  - rewrite unorm_D0. exact IHd.
Qed.

Lemma to_uint_leading p : leading (Pos.to_uint p) = true.
Proof.
  assert (H : Decimal.unorm (Pos.to_uint p) = Pos.to_uint p).
  { rewrite <- DecimalPos.Unsigned.to_of, DecimalPos.Unsigned.of_to.
    reflexivity. }
  destruct (unorm_leading (Pos.to_uint p)) as [H0|H1].
  - rewrite H in H0. now apply DecimalPos.Unsigned.to_uint_nonzero in H0.
  - now rewrite H in H1.
Qed.

Lemma delimited_fraction rest :
  delimited rest = true -> Json.starts_fraction rest = false.
Proof.
  destruct rest as [|c rest]; [reflexivity|]. unfold delimited.
  destruct (Py.digit_value c); [discriminate|]. now rewrite negb_true_iff.
Qed.

(** The digits of [p], read back after their first one. *)
Lemma scan_uint_pos p rest :
  delimited rest = true ->
  exists c t d,
    (NilEmpty.string_of_uint (Pos.to_uint p) ++ rest = String c t)%string
    /\ Py.digit_value c = Some d /\ d <> 0 /\ c <> "-"%char
    /\ Json.scan_digits t d = (Z.pos p, rest).
Proof.
  intros Hrest.
  pose proof (to_uint_leading p) as Hlead.
  pose proof (DecimalPos.Unsigned.of_to p) as Hval.
  destruct (Pos.to_uint p) as [|l|l|l|l|l|l|l|l|l|l]; try discriminate;
    cbn [NilEmpty.string_of_uint append]; cbn [Pos.of_uint] in Hval;
    injection Hval as Hval; rewrite <- Hval;
    do 2 eexists;
    match goal with
    | |- context [Pos.of_uint_acc _ ?k] => exists (Z.pos k)
    end;
    (split; [reflexivity|]); (split; [reflexivity|]);
    (split; [discriminate|]); (split; [discriminate|]);
    apply scan_digits_uint; exact Hrest.
Qed.

Lemma scan_number_dumps n rest :
  delimited rest = true ->
  Json.scan_number (Json.string_of_Z n ++ rest) = Some (n, rest).
Proof.
  intros Hrest. pose proof (delimited_fraction _ Hrest) as Hfrac.
  unfold Json.string_of_Z. destruct n as [|p|p]; cbn [Z.to_int NilEmpty.string_of_int].
  - cbn [NilEmpty.string_of_uint append]. unfold Json.scan_number.
    cbv iota beta. eval_digit. cbv iota beta. change (0 =? 0) with true.
    cbv iota. now rewrite Hfrac.
  - destruct (scan_uint_pos p rest Hrest) as [c [t [d [-> [Hc [Hd [Hminus Hscan]]]]]]].
    unfold Json.scan_number.
    replace (match String c t with
             | String "-" t0 => (true, t0)
             | _ => (false, String c t)
             end) with (false, String c t).
    + rewrite Hc. apply Z.eqb_neq in Hd. rewrite Hd, Hscan. now rewrite Hfrac.
    + clear - Hminus. destruct c as [[] [] [] [] [] [] [] []]; try reflexivity.
      now elim Hminus.
  - destruct (scan_uint_pos p rest Hrest) as [c [t [d [Heq [Hc [Hd [Hminus Hscan]]]]]]].
    cbn [append]. unfold Json.scan_number. cbv iota beta. rewrite Heq, Hc.
    apply Z.eqb_neq in Hd. rewrite Hd, Hscan. now rewrite Hfrac.
Qed.

(** *** Values *)

Lemma head_skip s : head_ok s = true -> Json.skip_ws s = s.
Proof.
  destruct s as [|c s]; [discriminate|].
  destruct c as [[] [] [] [] [] [] [] []]; try discriminate; reflexivity.
Qed.

Lemma head_not_bracket {T : Type} s (A : string -> T) (B : T) :
  head_ok s = true ->
  match s with
  | String "]" r => A r
  | _ => B
  end = B.
Proof.
  destruct s as [|c s]; [discriminate|].
  destruct c as [[] [] [] [] [] [] [] []]; try discriminate; reflexivity.
Qed.

Lemma head_not_brace {T : Type} s (A : string -> T) (B : T) :
  head_ok s = true ->
  match s with
  | String "}" r => A r
  | _ => B
  end = B.
Proof.
  destruct s as [|c s]; [discriminate|].
  destruct c as [[] [] [] [] [] [] [] []]; try discriminate; reflexivity.
Qed.

Lemma digit_head c t d : Py.digit_value c = Some d -> head_ok (String c t) = true.
Proof. intros H. unfold head_ok. now rewrite H. Qed.

Lemma dumps_head v rest : head_ok (Json.dumps v ++ rest) = true.
Proof.
  destruct v as [|[]|n|s|l|fields]; try reflexivity.
  cbn [Json.dumps]. unfold Json.string_of_Z.
  destruct n as [|p|p]; cbn [Z.to_int NilEmpty.string_of_int]; try reflexivity.
  destruct (Pos.to_uint p) eqn:Hp; try reflexivity.
  pose proof (to_uint_leading p) as H. now rewrite Hp in H.
Qed.

Lemma parse_value_space f s :
  Json.parse_value f (String " " s) = Json.parse_value f s.
Proof. destruct f; reflexivity. Qed.

Lemma parse_items_space f s :
  Json.parse_items f (String " " s) = Json.parse_items f s.
Proof.
  destruct f as [|f]; [reflexivity|]. cbn [Json.parse_items].
  now rewrite parse_value_space.
Qed.

Lemma parse_members_space f acc s :
  Json.parse_members f acc (String " " s) = Json.parse_members f acc s.
Proof. destruct f; reflexivity. Qed.

Lemma parse_value_quote f t :
  Json.parse_value (S f) (String Json.dquote t)
  = match Json.scan_string t with
    | Some (u, r) => Some (JStr u, r)
    | None => None
    end.
Proof. reflexivity. Qed.

Lemma parse_value_digit f c t d :
  Py.digit_value c = Some d ->
  Json.parse_value (S f) (String c t)
  = match Json.scan_number (String c t) with
    | Some (n, r) => Some (JNum n, r)
    | None => None
    end.
Proof.
  destruct c as [[] [] [] [] [] [] [] []]; intros H;
    try (vm_compute in H; discriminate); reflexivity.
Qed.

Lemma parse_value_minus f t :
  Json.parse_value (S f) (String "-" t)
  = match Json.scan_number (String "-" t) with
    | Some (n, r) => Some (JNum n, r)
    | None => None
    end.
Proof. reflexivity. Qed.

Lemma parse_value_bracket f t :
  Json.parse_value (S f) (String "[" t)
  = match Json.skip_ws t with
    | String "]" r => Some (JList [], r)
    | _ =>
        match Json.parse_items f t with
        | Some (l, r) => Some (JList l, r)
        | None => None
        end
    end.
Proof. reflexivity. Qed.

Lemma parse_value_brace f t :
  Json.parse_value (S f) (String "{" t)
  = match Json.skip_ws t with
    | String "}" r => Some (JObj [], r)
    | _ =>
        match Json.parse_members f [] t with
        | Some (fields, r) => Some (JObj fields, r)
        | None => None
        end
    end.
Proof. reflexivity. Qed.

Lemma parse_value_number f n rest :
  delimited rest = true ->
  Json.parse_value (S f) (Json.string_of_Z n ++ rest) = Some (JNum n, rest).
Proof.
  intros Hrest. pose proof (scan_number_dumps n rest Hrest) as Hscan.
  unfold Json.string_of_Z in *.
  destruct n as [|p|p]; cbn [Z.to_int NilEmpty.string_of_int] in *.
  - cbn [NilEmpty.string_of_uint append] in *.
    rewrite (parse_value_digit f "0" rest 0 eq_refl). now rewrite Hscan.
  - destruct (scan_uint_pos p rest Hrest) as [c [t [d [Heq [Hc _]]]]].
    rewrite Heq in *. rewrite (parse_value_digit f c t d Hc). now rewrite Hscan.
  - cbn [append] in *. rewrite parse_value_minus. now rewrite Hscan.
Qed.

Lemma length_app (s t : string) :
  String.length (s ++ t) = (String.length s + String.length t)%nat.
Proof. induction s as [|c s IH]; cbn; [reflexivity|now rewrite IH]. Qed.

Lemma join_cons sep x y rest :
  Json.join sep (x :: y :: rest) = (x ++ sep ++ Json.join sep (y :: rest))%string.
Proof. reflexivity. Qed.

Lemma parse_items_dumps l :
  Forall reads_back l ->
  forallb well_formed l = true ->
  l <> [] ->
  forall fuel rest,
    (String.length (Json.join ", " (map Json.dumps l)) + 1 < fuel)%nat ->
    Json.parse_items fuel
      (Json.join ", " (map Json.dumps l) ++ String "]" rest)
    = Some (l, rest).
Proof.
  induction 1 as [|x l Hx Hl IH]; intros Hwf Hne fuel rest Hfuel;
    [now elim Hne|].
  cbn [forallb] in Hwf. apply andb_true_iff in Hwf. destruct Hwf as [Hwx Hwl].
  destruct fuel as [|fuel]; [lia|]. cbn [Json.parse_items].
  destruct l as [|y l].
  - cbn [map Json.join] in *.
    rewrite (Hx Hwx fuel (String "]" rest)) by (try reflexivity; lia).
    reflexivity.
  - cbn [map] in *. rewrite join_cons in Hfuel |- *. rewrite !app_assoc_s.
    rewrite !length_app in Hfuel. cbn [String.length] in Hfuel.
    rewrite (Hx Hwx fuel) by (try reflexivity; lia).
    cbn [append]. 
    change (Json.skip_ws (String "," ?r)) with (String "," r).
    cbv iota beta. rewrite parse_items_space.
    rewrite (IH Hwl) by (try discriminate; lia). reflexivity.
Qed.

Lemma setitem_fresh acc k v :
  forallb (fun kv => negb (String.eqb (fst kv) k)) acc = true ->
  Py.setitem acc k v = (acc ++ [(k, v)])%list.
Proof.
  induction acc as [|[k' x] acc IH]; [reflexivity|].
  cbn [forallb fst Py.setitem app]. intros H.
  apply andb_true_iff in H. destruct H as [Hk Hacc].
  apply negb_true_iff in Hk. rewrite Hk. now rewrite IH.
Qed.

Lemma distinct_fresh (acc : list (string * json)) k keys :
  distinct (map fst acc ++ k :: keys)%list = true ->
  forallb (fun kv => negb (String.eqb (fst kv) k)) acc = true.
Proof.
  induction acc as [|[k' x] acc IH]; [reflexivity|].
  cbn [map fst app distinct forallb]. intros H.
  apply andb_true_iff in H. destruct H as [Hk Hrest].
  rewrite (IH Hrest), andb_true_r.
  rewrite existsb_app in Hk. cbn [existsb] in Hk.
  destruct (String.eqb k' k); [|reflexivity].
  now rewrite orb_true_r in Hk.
Qed.

Lemma parse_members_quote f acc t :
  Json.parse_members (S f) acc (String Json.dquote t)
  = match Json.scan_string t with
    | Some (key, rest') =>
        match Json.skip_ws rest' with
        | String ":" rest'' =>
            match Json.parse_value f rest'' with
            | Some (v, rest3) =>
                let acc' := Py.setitem acc key v in
                match Json.skip_ws rest3 with
                | String "," rest4 => Json.parse_members f acc' rest4
                | String "}" rest4 => Some (acc', rest4)
                | _ => None
                end
            | None => None
            end
        | _ => None
        end
    | None => None
    end.
Proof. reflexivity. Qed.

Lemma parse_members_dumps fields :
  Forall (fun kv => reads_back (snd kv)) fields ->
  forallb (fun kv => well_formed (snd kv)) fields = true ->
  fields <> [] ->
  forall acc fuel rest,
    distinct (map fst acc ++ map fst fields)%list = true ->
    (String.length (Json.join ", " (map member fields)) + 1 < fuel)%nat ->
    Json.parse_members fuel acc
      (Json.join ", " (map member fields) ++ String "}" rest)
    = Some ((acc ++ fields)%list, rest).
Proof.
  induction 1 as [|[k x] fields Hx Hfields IH];
    intros Hwf Hne acc fuel rest Hkeys Hfuel; [now elim Hne|].
  cbn [forallb snd] in Hwf, Hx.
  apply andb_true_iff in Hwf. destruct Hwf as [Hwx Hwl].
  destruct fuel as [|fuel]; [lia|].
  cbn [map fst] in Hkeys.
  pose proof (setitem_fresh acc k x (distinct_fresh _ _ _ Hkeys)) as Hset.
  assert (Hstep : forall tail,
    delimited tail = true ->
    (String.length (Json.dumps x) < fuel)%nat ->
    Json.parse_members (S fuel) acc (member (k, x) ++ tail)
    = match Json.skip_ws tail with
      | String "," rest4 =>
          Json.parse_members fuel (acc ++ [(k, x)])%list rest4
      | String "}" rest4 => Some ((acc ++ [(k, x)])%list, rest4)
      | _ => None
      end).
  { intros tail Htail Hlen. unfold member, Json.quote. cbn [fst snd append].
    rewrite !app_assoc_s. cbn [append].
    rewrite parse_members_quote, scan_escape.
    change (Json.skip_ws (String ":" ?r)) with (String ":" r).
    cbv iota beta. rewrite parse_value_space.
    rewrite (Hx Hwx fuel tail Hlen Htail). cbv zeta. now rewrite Hset. }
  destruct fields as [|kv fields].
  - cbn [map Json.join] in *. cbn [app].
    unfold member in Hfuel. cbn [fst snd] in Hfuel.
    rewrite !length_app in Hfuel.
    rewrite Hstep by (try reflexivity; lia). reflexivity.
  - cbn [map] in Hfuel |- *. rewrite join_cons in Hfuel |- *.
    rewrite !app_assoc_s. rewrite !length_app in Hfuel.
    unfold member at 1 in Hfuel. cbn [fst snd] in Hfuel.
    rewrite !length_app in Hfuel. cbn [String.length] in Hfuel.
    rewrite Hstep by (try reflexivity; lia).
    cbn [append]. change (Json.skip_ws (String "," ?r)) with (String "," r).
    cbv iota beta. rewrite parse_members_space.
    change (member kv :: map member fields)
      with (map member (kv :: fields)) in Hfuel |- *.
    rewrite (IH Hwl ltac:(discriminate) (acc ++ [(k, x)])%list fuel rest).
    + now rewrite <- app_assoc.
    + rewrite map_app, <- app_assoc. exact Hkeys.
    + lia.
Qed.

Theorem parse_value_dumps v : reads_back v.
Proof.
  induction v as [|b|n|s|l IH|fields IH] using json_nested_ind;
    intros Hwf fuel rest Hfuel Hrest;
    (destruct fuel as [|fuel]; [lia|]).
  - reflexivity.
  - destruct b; reflexivity.
  - now apply parse_value_number.
  - cbn [Json.dumps]. unfold Json.quote. cbn [append].
    rewrite app_assoc_s. cbn [append].
    now rewrite parse_value_quote, scan_escape.
  - cbn [Json.dumps well_formed] in *. cbn [append]. rewrite app_assoc_s.
    cbn [append]. rewrite parse_value_bracket.
    destruct l as [|x l]; [reflexivity|].
    assert (Hhead : head_ok (Json.join ", " (map Json.dumps (x :: l))
                             ++ String "]" rest) = true).
    { destruct l; cbn [map]; [apply dumps_head|].
      rewrite join_cons, app_assoc_s. apply dumps_head. }
    rewrite (head_skip _ Hhead), (head_not_bracket _ _ _ Hhead).
    rewrite !length_app in Hfuel. cbn [String.length] in Hfuel.
    rewrite (parse_items_dumps _ IH Hwf) by (try discriminate; lia).
    reflexivity.
  - cbn [Json.dumps well_formed] in *.
    change (fun kv : string * json =>
              (Json.quote (fst kv) ++ ": " ++ Json.dumps (snd kv))%string)
      with member in *.
    cbn [append]. rewrite app_assoc_s.
    cbn [append]. rewrite parse_value_brace.
    destruct fields as [|kv fields]; [reflexivity|].
    apply andb_true_iff in Hwf. destruct Hwf as [Hkeys Hwf].
    assert (Hhead : head_ok (Json.join ", " (map member (kv :: fields))
                             ++ String "}" rest) = true).
    { destruct fields; reflexivity. }
    rewrite (head_skip _ Hhead), (head_not_brace _ _ _ Hhead).
    rewrite !length_app in Hfuel. cbn [String.length] in Hfuel.
    rewrite (parse_members_dumps _ IH Hwf) by (try discriminate; trivial; lia).
    reflexivity.
Qed.

Lemma append_empty (s : string) : (s ++ EmptyString)%string = s.
Proof. induction s as [|c s IH]; cbn; [reflexivity|now rewrite IH]. Qed.

(** [json.loads(json.dumps(v)) == v] *)
Theorem loads_dumps v : well_formed v = true -> Json.loads (Json.dumps v) = Some v.
Proof.
  intros Hwf. unfold Json.loads.
  pose proof (parse_value_dumps v Hwf
                (2 * String.length (Json.dumps v) + 2)%nat EmptyString) as H.
  rewrite append_empty in H. rewrite H by (try reflexivity; lia). reflexivity.
Qed.

(** *** DELETE *)

(** C7: DELETE /drinks/{id} by an authorized caller, for an id that no
    row of a reachable store carries, is answered by the 404 handler:
    the status is 404, hence not 200, and the store is what it was. *)
Theorem delete_absent_id_is_404 requirePermission st auth body payload id :
  requirePermission auth "delete:drinks" = inr payload ->
  available st = true ->
  (forall d, In d (rows st) -> Drink.id d <> id) ->
  handle requirePermission st (mkRequest (DELETE_drinks id) auth body)
  = (st, unprocessable_404)
  /\ status unprocessable_404 = 404
  /\ status unprocessable_404 <> 200.
Proof.
  intros Hgate Hup Habsent. split; [|split; [reflexivity|discriminate]].
  rewrite (handle_authorized requirePermission st (DELETE_drinks id) auth body
             "delete:drinks" (fun p => delete_drinks p id) payload
             eq_refl Hgate).
  unfold delete_drinks, Db.one_or_none. rewrite Hup.
  destruct (find _ (rows st)) as [d|] eqn:Hfind; [|reflexivity].
  apply find_some in Hfind. destruct Hfind as [Hin Heq].
  apply Z.eqb_eq in Heq. now elim (Habsent d Hin).
Qed.

(** *** The handler of internal failures *)

(** C9: an internal failure, here the store failing under GET /drinks,
    is answered by [server_error], whose body is the uniform failure
    shape with the fixed message, but whose HTTP status is 200: the
    view returns the body without a status code. *)
Theorem store_failure_answered_with_status_200 requirePermission st auth body :
  available st = false ->
  handle requirePermission st (mkRequest GET_drinks auth body)
  = (st, mkResponse 200
           (Some (JObj [("success", JBool false); ("error", JNum 500);
                        ("message", JStr "Something went wrong.")]))).
Proof.
  intros Hdown. unfold handle. cbn [route view_of].
  unfold get_drinks, Db.query_all. now rewrite Hdown.
Qed.

(** *** PATCH with a recipe *)

Lemma patch_step_raises recipe drink i :
  patch_step recipe drink i = Raise TypeError.
Proof. reflexivity. Qed.

(** C2: PATCH /drinks/{id} on an existing drink with a non-empty recipe
    list in the body merges nothing: the first turn of the loop
    subscripts the list with the pair that [enumerate] yields, the
    [TypeError] leaves the view, the store keeps the old drink and the
    caller gets the answer of the 500 handler. *)
Theorem patch_with_recipe_raises
  requirePermission st auth payload id drink fields step steps :
  requirePermission auth "patch:drinks" = inr payload ->
  Db.one_or_none st id = Ok (Some drink) ->
  Py.lookup "recipe" fields = Some (JList (step :: steps)) ->
  patch_drink payload id st (mkRequest (PATCH_drinks id) auth (JObj fields))
  = (st, Raise TypeError)
  /\ handle requirePermission st
       (mkRequest (PATCH_drinks id) auth (JObj fields))
     = (st, server_error).
Proof.
  intros Hgate Hfound Hrecipe.
  assert (Hview :
    patch_drink payload id st (mkRequest (PATCH_drinks id) auth (JObj fields))
    = (st, Raise TypeError)).
  { unfold patch_drink. rewrite Hfound. cbn [get_json].
    replace (Py.truthy (JObj fields)) with true
      by (destruct fields; [discriminate|reflexivity]).
    cbn [negb]. unfold patch_fields.
    cbn [Py.get]. rewrite Hrecipe.
    destruct (Py.lookup "title" fields); reflexivity. }
  split; [exact Hview|].
  rewrite (handle_authorized requirePermission st (PATCH_drinks id) auth
             (JObj fields) "patch:drinks" (fun p => patch_drink p id) payload
             eq_refl Hgate).
  cbv beta. now rewrite Hview.
Qed.

(** *** POST *)

Lemma mapM_raise {A B : Type} (f : A -> result B) l e :
  mapM f l = Raise e -> exists x, In x l /\ f x = Raise e.
Proof.
  induction l as [|x l IH]; cbn [mapM]; intros H; [discriminate|].
  destruct (f x) as [y|e'] eqn:Hfx; cbn [bind] in H.
  - destruct (mapM f l) as [ys|e'']; cbn [bind] in H; [discriminate|].
    destruct (IH H) as [x' [Hin Hx']]. exists x'. split; [now right|exact Hx'].
  - injection H as <-. exists x. split; [now left|exact Hfx].
Qed.

Lemma step_view_raise keys step e :
  Drink.step_view keys step = Raise e -> e = KeyError \/ e = TypeError.
Proof.
  unfold Drink.step_view. destruct step; try (intros [= <-]; now right).
  destruct (mapM _ keys) as [entries|e'] eqn:Hm; cbn [bind]; [discriminate|].
  intros [= <-]. apply mapM_raise in Hm. destruct Hm as [k [_ Hk]].
  destruct (Py.lookup k fields); [discriminate|]. injection Hk as <-. now left.
Qed.

Lemma decode_raise text e :
  Drink.decode text = Raise e -> e = TypeError \/ e = JSONDecodeError.
Proof.
  unfold Drink.decode. destruct (Json.loads text) as [[]|]; intros [= <-]; auto.
Qed.

(** An exception that [drink.long()] raises is no [HTTPException] and no
    [AuthError]: Flask answers it through the handler of 500. *)
Lemma long_raise_is_internal d e :
  Drink.long d = Raise e -> handle_exception e = server_error.
Proof.
  unfold Drink.long.
  destruct (Drink.decode (Drink.recipe d)) as [steps|e'] eqn:Hd; cbn [bind].
  - unfold Drink.longView.
    destruct (mapM _ steps) as [view|e''] eqn:Hm; cbn [bind]; [discriminate|].
    intros [= <-]. apply mapM_raise in Hm. destruct Hm as [s [_ Hs]].
    apply step_view_raise in Hs. destruct Hs as [-> | ->]; reflexivity.
  - intros [= <-]. apply decode_raise in Hd.
    destruct Hd as [-> | ->]; reflexivity.
Qed.

(** What [post_drink] does with a body that passes [check_drink_body]
    while the store can be reached: one row is appended, made of the
    JSON texts of the body's title and recipe. *)
Lemma post_accepted requirePermission st auth payload fields :
  requirePermission auth "post:drinks" = inr payload ->
  available st = true ->
  check_drink_body (JObj fields) = Ok true ->
  let drink :=
    Drink.mk (next_id st) (JStr (Json.dumps (field "title" fields)))
      (Json.dumps (field "recipe" fields)) in
  handle requirePermission st (mkRequest POST_drinks auth (JObj fields))
  = (mkStore (rows st ++ [drink]) (next_id st + 1) true,
     match Drink.long drink with
     | Ok long => jsonify (JObj [("success", JBool true); ("drinks", long)])
     | Raise e => handle_exception e
     end).
Proof.
  intros Hgate Hup Hcheck drink.
  rewrite (handle_authorized requirePermission st POST_drinks auth
             (JObj fields) "post:drinks" post_drink payload eq_refl Hgate).
  unfold post_drink. cbn [get_json]. rewrite Hcheck.
  cbn [Py.get]. fold (field "title" fields).
  replace (match Py.lookup "title" fields with
           | Some x => Ok x | None => Ok JNull end)
    with (@Ok json (field "title" fields))
    by (unfold field; destruct (Py.lookup "title" fields); reflexivity).
  replace (match Py.lookup "recipe" fields with
           | Some x => Ok x | None => Ok JNull end)
    with (@Ok json (field "recipe" fields))
    by (unfold field; destruct (Py.lookup "recipe" fields); reflexivity).
  cbn [bind]. unfold Db.insert. rewrite Hup. fold drink.
  destruct (Drink.long drink); reflexivity.
Qed.

Lemma post_accepted_status requirePermission st auth payload fields :
  requirePermission auth "post:drinks" = inr payload ->
  available st = true ->
  check_drink_body (JObj fields) = Ok true ->
  status (snd (handle requirePermission st
                 (mkRequest POST_drinks auth (JObj fields)))) = 200.
Proof.
  intros Hgate Hup Hcheck.
  rewrite (post_accepted _ _ _ _ _ Hgate Hup Hcheck). cbn [snd].
  destruct (Drink.long _) as [long|e] eqn:Hlong; [reflexivity|].
  now rewrite (long_raise_is_internal _ _ Hlong).
Qed.

(** What [post_drink] does with a body that [check_drink_body] turns
    down: [abort(400)], which no handler is registered for, and the
    store is what it was. *)
Lemma post_rejected requirePermission st auth payload body :
  requirePermission auth "post:drinks" = inr payload ->
  check_drink_body body = Ok false ->
  handle requirePermission st (mkRequest POST_drinks auth body)
  = (st, mkResponse 400 None).
Proof.
  intros Hgate Hcheck.
  rewrite (handle_authorized requirePermission st POST_drinks auth
             body "post:drinks" post_drink payload eq_refl Hgate).
  unfold post_drink. cbn [get_json]. now rewrite Hcheck.
Qed.

(** What [post_drink] does when [check_drink_body] itself raises. *)
Lemma post_check_raises requirePermission st auth payload body e :
  requirePermission auth "post:drinks" = inr payload ->
  check_drink_body body = Raise e ->
  handle requirePermission st (mkRequest POST_drinks auth body)
  = (st, handle_exception e).
Proof.
  intros Hgate Hcheck.
  rewrite (handle_authorized requirePermission st POST_drinks auth
             body "post:drinks" post_drink payload eq_refl Hgate).
  unfold post_drink. cbn [get_json]. now rewrite Hcheck.
Qed.

Lemma get_field fields key : Py.get (JObj fields) key = Ok (field key fields).
Proof.
  unfold Py.get, field. now destruct (Py.lookup key fields).
Qed.

Lemma check_drink_body_dict fields steps :
  Py.lookup "recipe" fields = Some (JList steps) ->
  check_drink_body (JObj fields) = check_recipe_steps steps.
Proof.
  intros Hrecipe. unfold check_drink_body.
  replace (Py.truthy (JObj fields)) with true
    by (destruct fields; [discriminate|reflexivity]).
  cbn [negb]. rewrite !get_field. cbn [bind]. unfold field at 1.
  now rewrite Hrecipe.
Qed.

(** C4 (amended): a POST whose body is a dict with a [recipe] that is no
    list (or with no [recipe]) is turned down with 400 and the store is
    what it was. *)
Theorem post_recipe_not_list_is_400 requirePermission st auth payload fields :
  requirePermission auth "post:drinks" = inr payload ->
  Py.isinstance_list (field "recipe" fields) = false ->
  handle requirePermission st (mkRequest POST_drinks auth (JObj fields))
  = (st, mkResponse 400 None).
Proof.
  intros Hgate Hrecipe. apply (post_rejected _ _ _ payload _ Hgate).
  unfold check_drink_body. destruct (Py.truthy (JObj fields)); [|reflexivity].
  cbn [negb]. rewrite !get_field. cbn [bind].
  destruct (field "recipe" fields); try reflexivity. discriminate.
Qed.

(** C4, as stated, fails for the empty list: the loop of the validator
    has nothing to look at, the body passes and a drink with an empty
    recipe is created. *)
Lemma post_empty_recipe_creates_drink :
  let body := JObj [("title", JStr "X"); ("recipe", JList [])] in
  check_drink_body body = Ok true
  /\ handle manager_gate empty_store (as_manager POST_drinks body)
     = (mkStore [Drink.mk 1 (JStr (Json.quote "X")) "[]"] 2 true,
        mkResponse 200
          (Some (JObj [("success", JBool true);
                       ("drinks",
                        JObj [("id", JNum 1);
                              ("title", JStr (Json.quote "X"));
                              ("recipe", JList [])])]))).
Proof. split; vm_compute; reflexivity. Qed.

(** C5: a POST whose body has no [title] but a recipe that passes the
    loop of the validator is not turned down: [check_drink_body] reads
    the title and never looks at it, so a drink is created whose title
    is the text [null], and the status is 200. *)
Theorem post_without_title_creates_drink
  requirePermission st auth payload fields steps :
  requirePermission auth "post:drinks" = inr payload ->
  available st = true ->
  Py.lookup "title" fields = None ->
  Py.lookup "recipe" fields = Some (JList steps) ->
  check_recipe_steps steps = Ok true ->
  let answer :=
    handle requirePermission st (mkRequest POST_drinks auth (JObj fields)) in
  fst answer
  = mkStore
      (rows st ++ [Drink.mk (next_id st) (JStr "null")
                     (Json.dumps (JList steps))])
      (next_id st + 1) true
  /\ status (snd answer) = 200.
Proof.
  intros Hgate Hup Htitle Hrecipe Hsteps answer.
  assert (Hcheck : check_drink_body (JObj fields) = Ok true)
    by now rewrite (check_drink_body_dict _ _ Hrecipe).
  split.
  - unfold answer. rewrite (post_accepted _ _ _ _ _ Hgate Hup Hcheck).
    cbn [fst]. unfold field. now rewrite Htitle, Hrecipe.
  - apply (post_accepted_status _ _ _ _ _ Hgate Hup Hcheck).
Qed.

(** *** The title that POST stores *)

Lemma escape_char_length c : (1 <= String.length (Json.escape_char c))%nat.
Proof.
  unfold Json.escape_char.
  repeat match goal with
         | |- context [if ?b then _ else _] => destruct b
         end; cbn; lia.
Qed.

Lemma escape_length s : (String.length s <= String.length (Json.escape s))%nat.
Proof.
  induction s as [|c s IH]; cbn [Json.escape String.length]; [lia|].
  rewrite length_app. pose proof (escape_char_length c). lia.
Qed.

(** The JSON text of a string is never the string itself. *)
Lemma quote_neq s : Json.quote s <> s.
Proof.
  intros H. apply (f_equal String.length) in H. unfold Json.quote in H.
  cbn [String.length] in H. rewrite length_app in H. cbn [String.length] in H.
  pose proof (escape_length s). lia.
Qed.

Lemma truthy_field key fields :
  Py.truthy (field key fields) = true ->
  Py.lookup key fields = Some (field key fields).
Proof.
  unfold field. destruct (Py.lookup key fields); [reflexivity|discriminate].
Qed.

(** A recipe that passes the loop of the validator has a long view: the
    [color], [name] and [parts] of every step. *)
Lemma checked_steps_long_view steps :
  check_recipe_steps steps = Ok true ->
  Drink.longView steps = Ok (map long_step steps).
Proof.
  unfold Drink.longView.
  induction steps as [|r steps IH]; [reflexivity|].
  cbn [check_recipe_steps]. destruct r as [| | | | |fs]; try discriminate.
  rewrite !get_field. cbn [bind].
  destruct (Py.truthy (field "color" fs)) eqn:Hcolor; [|discriminate].
  destruct (Py.truthy (field "name" fs)) eqn:Hname; [|discriminate].
  destruct (Py.truthy (field "parts" fs)) eqn:Hparts; [|discriminate].
  cbn [negb orb]. intros Hrest.
  assert (Hsteps : check_recipe_steps steps = Ok true).
  { destruct (Py.int (field "parts" fs)) as [n|e]; [exact Hrest|].
    destruct e; discriminate. }
  cbn [mapM map]. rewrite (IH Hsteps).
  unfold Drink.step_view. cbn [mapM].
  rewrite (truthy_field _ _ Hcolor), (truthy_field _ _ Hname),
    (truthy_field _ _ Hparts).
  reflexivity.
Qed.

Lemma well_formed_lookup key fields v :
  well_formed (JObj fields) = true ->
  Py.lookup key fields = Some v ->
  well_formed v = true.
Proof.
  cbn [well_formed]. intros H. apply andb_true_iff in H.
  destruct H as [_ H]. induction fields as [|[k x] fields IH]; [discriminate|].
  cbn [forallb snd] in H. apply andb_true_iff in H. destruct H as [Hx Hrest].
  cbn [Py.lookup]. destruct (String.eqb k key); [|now apply IH].
  now intros [= <-].
Qed.

(** The long view of a drink whose recipe text is the [json.dumps] of a
    recipe that passed validation. *)
Lemma long_of_dumped_recipe id title steps :
  well_formed (JList steps) = true ->
  check_recipe_steps steps = Ok true ->
  Drink.long (Drink.mk id title (Json.dumps (JList steps)))
  = Ok (JObj [("id", JNum id); ("title", title);
              ("recipe", JList (map long_step steps))]).
Proof.
  intros Hwf Hcheck. unfold Drink.long, Drink.decode. cbn [Drink.recipe].
  rewrite (loads_dumps _ Hwf). cbn [bind].
  rewrite (checked_steps_long_view _ Hcheck). reflexivity.
Qed.

Lemma mapM_app {A B : Type} (f : A -> result B) l l' ys ys' :
  mapM f l = Ok ys -> mapM f l' = Ok ys' ->
  mapM f (l ++ l')%list = Ok (ys ++ ys')%list.
Proof.
  revert ys. induction l as [|x l IH]; cbn [mapM app]; intros ys H H'.
  - now injection H as <-.
  - destruct (f x) as [y|]; cbn [bind] in *; [|discriminate].
    destruct (mapM f l) as [zs|]; cbn [bind] in *; [|discriminate].
    injection H as <-. now rewrite (IH zs eq_refl H').
Qed.

(** C1: a POST with a text title and a recipe that passes validation
    is answered with the drink that was stored.  Its recipe is the
    recipe of the request ([color], [name] and [parts] of every step),
    and GET /drinks-detail shows the same drink afterwards; but its
    title is not the text of the request: it is the JSON encoding of
    that text, quotes included, because [post_drink] passes the title
    through [json.dumps] and nothing decodes it again. *)
Theorem post_stores_encoded_title
  requirePermission st auth payload auth' payload' fields title steps olds :
  requirePermission auth "post:drinks" = inr payload ->
  requirePermission auth' "get:drinks-detail" = inr payload' ->
  available st = true ->
  mapM Drink.long (rows st) = Ok olds ->
  well_formed (JObj fields) = true ->
  Py.lookup "title" fields = Some (JStr title) ->
  Py.lookup "recipe" fields = Some (JList steps) ->
  check_recipe_steps steps = Ok true ->
  let stored :=
    Drink.mk (next_id st) (JStr (Json.quote title))
      (Json.dumps (JList steps)) in
  let shown :=
    JObj [("id", JNum (next_id st)); ("title", JStr (Json.quote title));
          ("recipe", JList (map long_step steps))] in
  let st' := mkStore (rows st ++ [stored]) (next_id st + 1) true in
  handle requirePermission st (mkRequest POST_drinks auth (JObj fields))
  = (st', mkResponse 200
            (Some (JObj [("success", JBool true); ("drinks", shown)])))
  /\ handle requirePermission st' (mkRequest GET_drinks_detail auth' JNull)
     = (st', mkResponse 200
               (Some (JObj [("success", JBool true);
                            ("drinks", JList (olds ++ [shown]))])))
  /\ Json.quote title <> title.
Proof.
  intros Hgate Hgate' Hup Holds Hwf Htitle Hrecipe Hsteps stored shown st'.
  assert (Hcheck : check_drink_body (JObj fields) = Ok true)
    by now rewrite (check_drink_body_dict _ _ Hrecipe).
  assert (Hlong : Drink.long stored = Ok shown)
    by (apply long_of_dumped_recipe;
        [exact (well_formed_lookup _ _ _ Hwf Hrecipe)|exact Hsteps]).
  split; [|split; [|apply quote_neq]].
  - rewrite (post_accepted _ _ _ _ _ Hgate Hup Hcheck).
    unfold field. rewrite Htitle, Hrecipe.
    change (Json.dumps (JStr title)) with (Json.quote title).
    fold stored. fold st'. now rewrite Hlong.
  - rewrite (handle_authorized requirePermission st' GET_drinks_detail auth'
               JNull "get:drinks-detail" get_drinks_details payload'
               eq_refl Hgate').
    unfold get_drinks_details, Db.query_all. cbn [available rows st'].
    rewrite (mapM_app Drink.long (rows st) [stored] olds [shown] Holds)
      by (cbn [mapM]; now rewrite Hlong).
    reflexivity.
Qed.

(** The example of the specification, run: the title of the answer is
    the seven characters of the quoted text. *)
Example post_latte :
  handle manager_gate empty_store (as_manager POST_drinks latte)
  = (mkStore
       [Drink.mk 1 (JStr (Json.quote "Latte")) (Json.dumps latte_recipe)]
       2 true,
     mkResponse 200
       (Some (JObj [("success", JBool true);
                    ("drinks",
                     JObj [("id", JNum 1);
                           ("title", JStr (Json.quote "Latte"));
                           ("recipe", latte_recipe)])])))
  /\ String.length (Json.quote "Latte") = 7%nat.
Proof. split; vm_compute; reflexivity. Qed.

(** *** The policy on [parts] *)





(** *** Bodies on which the validator raises *)

Lemma check_faulty_step r rest e :
  step_fault r = Some e -> check_recipe_steps (r :: rest) = Raise e.
Proof.
  destruct r as [| | | | |fields]; try (intros [= <-]; reflexivity).
  unfold step_fault. cbn [check_recipe_steps]. rewrite !get_field. cbn [bind].
  destruct (Py.truthy (field "color" fields)); [|discriminate].
  destruct (Py.truthy (field "name" fields)); [|discriminate].
  destruct (Py.truthy (field "parts" fields)) eqn:Hparts; [|discriminate].
  cbn [andb negb orb].
  destruct (field "parts" fields); try discriminate; intros [= <-]; reflexivity.
Qed.

(** C10: [check_drink_body] is not total.  When the recipe is a list in
    which the steps before some step pass and that step is no dict
    ([AttributeError] from [.get]) or carries a non-empty list or dict
    as [parts] ([TypeError] from [int], which [except ValueError] does
    not catch), the validator raises; the exception leaves [post_drink],
    and the request is answered by the handler of 500 instead of the
    400 of a rejected body.  The store is what it was. *)
Theorem post_validator_raises
  requirePermission st auth payload fields pre bad rest e :
  requirePermission auth "post:drinks" = inr payload ->
  Py.lookup "recipe" fields = Some (JList (pre ++ bad :: rest)) ->
  check_recipe_steps pre = Ok true ->
  step_fault bad = Some e ->
  check_drink_body (JObj fields) = Raise e
  /\ (e = AttributeError \/ e = TypeError)
  /\ handle requirePermission st (mkRequest POST_drinks auth (JObj fields))
     = (st, server_error)
  /\ server_error <> mkResponse 400 None
  /\ data server_error
     = Some (JObj [("success", JBool false); ("error", JNum 500);
                   ("message", JStr "Something went wrong.")]).
Proof.
  intros Hgate Hrecipe Hpre Hfault.
  assert (Hcheck : check_drink_body (JObj fields) = Raise e).
  { rewrite (check_drink_body_dict _ _ Hrecipe).
    rewrite (check_recipe_steps_app _ _ Hpre).
    now apply check_faulty_step. }
  assert (Hkind : e = AttributeError \/ e = TypeError).
  { unfold step_fault in Hfault. destruct bad; try (injection Hfault as <-; now left).
    destruct (_ && _); [|discriminate].
    destruct (field "parts" fields0); try discriminate;
      injection Hfault as <-; now right. }
  split; [exact Hcheck|]. split; [exact Hkind|].
  split; [|split; [discriminate|reflexivity]].
  rewrite (post_check_raises _ _ _ payload _ _ Hgate Hcheck).
  destruct Hkind as [-> | ->]; reflexivity.
Qed.

(** *** PATCH with a title only *)

Lemma find_after_replace (rows : list Drink.t) id drink updated :
  Drink.id updated = id ->
  find (fun d => Drink.id d =? id) rows = Some drink ->
  find (fun d => Drink.id d =? id) (Db.replace_row rows updated)
  = Some updated.
Proof.
  intros Hid. induction rows as [|r rows IH]; [discriminate|].
  cbn [find Db.replace_row]. rewrite Hid.
  destruct (Drink.id r =? id) eqn:Hr.
  - intros _. cbn [find]. now rewrite Hid, Z.eqb_refl.
  - intros Hfind. cbn [find]. rewrite Hr. now apply IH.
Qed.

Lemma recipes_after_replace (rows : list Drink.t) id drink updated :
  Drink.id updated = id ->
  find (fun d => Drink.id d =? id) rows = Some drink ->
  Drink.recipe updated = Drink.recipe drink ->
  map Drink.recipe (Db.replace_row rows updated) = map Drink.recipe rows.
Proof.
  intros Hid Hfind Hrecipe. induction rows as [|r rows IH]; [discriminate|].
  cbn [find Db.replace_row] in *. rewrite Hid.
  destruct (Drink.id r =? id).
  - injection Hfind as ->. cbn [map]. now rewrite Hrecipe.
  - cbn [map]. now rewrite IH.
Qed.

(** C6 (amended): PATCH /drinks/{id} by an authorized caller on an
    existing drink of a reachable store, with a body that has a
    non-empty text title and no recipe, writes the title into the row of
    that id and leaves the recipe text of the row, and every other row,
    as they were; the status is 200. *)
Theorem patch_title_only
  requirePermission st auth payload id drink fields title :
  requirePermission auth "patch:drinks" = inr payload ->
  available st = true ->
  find (fun d => Drink.id d =? id) (rows st) = Some drink ->
  Py.lookup "title" fields = Some (JStr title) ->
  title <> EmptyString ->
  Py.lookup "recipe" fields = None ->
  let updated := Drink.mk id (JStr title) (Drink.recipe drink) in
  let answer :=
    handle requirePermission st
      (mkRequest (PATCH_drinks id) auth (JObj fields)) in
  rows (fst answer) = Db.replace_row (rows st) updated
  /\ Db.one_or_none (fst answer) id = Ok (Some updated)
  /\ map Drink.recipe (rows (fst answer)) = map Drink.recipe (rows st)
  /\ status (snd answer) = 200.
Proof.
  intros Hgate Hup Hfind Htitle Hnonempty Hrecipe updated answer.
  assert (Hid : Drink.id drink = id)
    by (apply find_some in Hfind; now apply Z.eqb_eq).
  assert (Hanswer : answer =
    (mkStore (Db.replace_row (rows st) updated) (next_id st) true,
     match Drink.long updated with
     | Ok long =>
         jsonify (JObj [("success", JBool true); ("drinks", JList [long])])
     | Raise e => handle_exception e
     end)).
  { unfold answer.
    rewrite (handle_authorized requirePermission st (PATCH_drinks id) auth
               (JObj fields) "patch:drinks" (fun p => patch_drink p id)
               payload eq_refl Hgate).
    unfold patch_drink, Db.one_or_none. rewrite Hup, Hfind. cbn [get_json].
    replace (Py.truthy (JObj fields)) with true
      by (destruct fields; [discriminate|reflexivity]).
    cbn [negb]. unfold patch_fields. rewrite !get_field. cbn [bind].
    unfold field. rewrite Htitle, Hrecipe. cbn [Py.truthy].
    destruct title as [|c title']; [now elim Hnonempty|].
    unfold Db.update. rewrite Hup, Hid.
    fold updated. destruct (Drink.long updated); reflexivity. }
  rewrite Hanswer. cbn [fst snd rows]. split; [reflexivity|].
  split; [|split].
  - unfold Db.one_or_none. cbn [available rows].
    now rewrite (find_after_replace (rows st) id drink updated eq_refl Hfind).
  - now apply recipes_after_replace with (id := id) (drink := drink).
  - destruct (Drink.long updated) as [long|e] eqn:Hlong; [reflexivity|].
    now rewrite (long_raise_is_internal _ _ Hlong).
Qed.

(** C6, as stated, fails for the empty title: the test [if title:] of
    the view skips the assignment, and the answer is a success while
    the stored title is the old one. *)
Lemma patch_empty_title_keeps_title :
  let body := JObj [("title", JStr EmptyString)] in
  let answer :=
    handle manager_gate latte_store (as_manager (PATCH_drinks 1) body) in
  let old :=
    Drink.mk 1 (JStr (Json.quote "Latte")) (Json.dumps latte_recipe) in
  Db.one_or_none latte_store 1 = Ok (Some old)
  /\ status (snd answer) = 200
  /\ Db.one_or_none (fst answer) 1 = Ok (Some old)
  /\ Drink.title old <> JStr EmptyString.
Proof.
  repeat split; try (vm_compute; reflexivity). vm_compute. discriminate.
Qed.

(** *** GET /drinks *)

Lemma mapM_ok {A B : Type} (f : A -> result B) l ys :
  mapM f l = Ok ys -> Forall (fun y => exists x, In x l /\ f x = Ok y) ys.
Proof.
  revert ys. induction l as [|x l IH]; cbn [mapM]; intros ys H.
  - injection H as <-. constructor.
  - destruct (f x) as [y|] eqn:Hfx; cbn [bind] in H; [|discriminate].
    destruct (mapM f l) as [ys'|]; cbn [bind] in H; [|discriminate].
    injection H as <-. constructor.
    + exists x. split; [now left|exact Hfx].
    + apply Forall_impl with (2 := IH ys' eq_refl).
      intros y' [x' [Hin Hx']]. exists x'. split; [now right|exact Hx'].
Qed.

Lemma short_is_short_drink d v : Drink.short d = Ok v -> short_drink v.
Proof.
  unfold Drink.short.
  destruct (Drink.decode (Drink.recipe d)) as [steps|]; cbn [bind];
    [|discriminate].
  destruct (Drink.shortView steps) as [view|] eqn:Hview; cbn [bind];
    [|discriminate].
  intros [= <-]. exists (Drink.id d), (Drink.title d), view.
  split; [reflexivity|].
  apply mapM_ok in Hview. apply Forall_impl with (2 := Hview).
  intros s [x [_ Hx]]. unfold Drink.step_view in Hx.
  destruct x as [| | | | |fields]; try discriminate. cbn [mapM] in Hx.
  destruct (Py.lookup "color" fields) as [color|]; cbn [bind] in Hx;
    [|discriminate].
  destruct (Py.lookup "name" fields) as [name|]; cbn [bind] in Hx;
    [|discriminate].
  injection Hx as <-. now exists color, name.
Qed.

Lemma short_raise_is_internal d e :
  Drink.short d = Raise e -> handle_exception e = server_error.
Proof.
  unfold Drink.short.
  destruct (Drink.decode (Drink.recipe d)) as [steps|e'] eqn:Hd; cbn [bind].
  - unfold Drink.shortView.
    destruct (mapM _ steps) as [view|e''] eqn:Hm; cbn [bind]; [discriminate|].
    intros [= <-]. apply mapM_raise in Hm. destruct Hm as [s [_ Hs]].
    apply step_view_raise in Hs. destruct Hs as [-> | ->]; reflexivity.
  - intros [= <-]. apply decode_raise in Hd.
    destruct Hd as [-> | ->]; reflexivity.
Qed.

(** C8: GET /drinks asks for no token: whatever the gate and the
    Authorization header, absent or not, the answer is the same and the
    store is what it was.  The answer is either that of the 500 handler
    or a success whose drinks are all in short view: every step has
    the entries [color] and [name] and no [parts]. *)
Theorem get_drinks_is_public_and_short
  requirePermission requirePermission' st auth auth' body body' :
  let answer := handle requirePermission st (mkRequest GET_drinks auth body) in
  answer = handle requirePermission' st (mkRequest GET_drinks auth' body')
  /\ answer = handle requirePermission st (mkRequest GET_drinks None body)
  /\ fst answer = st
  /\ (snd answer = server_error
      \/ exists drinks,
           snd answer
           = mkResponse 200
               (Some (JObj [("success", JBool true);
                            ("drinks", JList drinks)]))
           /\ Forall short_drink drinks
           /\ forall d id title steps s fields,
                In d drinks ->
                d = JObj [("id", id); ("title", title);
                          ("recipe", JList steps)] ->
                In s steps -> s = JObj fields ->
                Py.lookup "parts" fields = None).
Proof.
  intros answer. split; [reflexivity|]. split; [reflexivity|].
  unfold answer, handle. cbn [route view_of]. unfold get_drinks, Db.query_all.
  destruct (available st); [|split; [reflexivity|now left]].
  destruct (mapM Drink.short (rows st)) as [drinks|e] eqn:Hm; cbn [bind fst snd].
  - split; [reflexivity|]. right. exists drinks. split; [reflexivity|].
    assert (Hshort : Forall short_drink drinks).
    { apply mapM_ok in Hm. apply Forall_impl with (2 := Hm).
      intros v [d [_ Hd]]. now apply short_is_short_drink in Hd. }
    split; [exact Hshort|].
    intros d id title steps s fields Hin Hd Hs Hfields.
    rewrite Forall_forall in Hshort.
    destruct (Hshort d Hin) as [id' [title' [steps' [Hd' Hsteps]]]].
    rewrite Hd in Hd'. injection Hd' as _ _ <-.
    rewrite Forall_forall in Hsteps.
    destruct (Hsteps s Hs) as [color [name Heq]].
    rewrite Hfields in Heq. injection Heq as ->. reflexivity.
  - split; [reflexivity|]. left.
    apply mapM_raise in Hm. destruct Hm as [d [_ Hd]].
    now apply short_raise_is_internal in Hd.
Qed.

(** GET /drinks on the store that holds the latte, without a token. *)
Example get_drinks_latte :
  handle manager_gate latte_store (mkRequest GET_drinks None JNull)
  = (latte_store,
     mkResponse 200
       (Some (JObj [("success", JBool true);
                    ("drinks",
                     JList [JObj [("id", JNum 1);
                                  ("title", JStr (Json.quote "Latte"));
                                  ("recipe",
                                   JList [JObj [("color", JStr "white");
                                                ("name", JStr "milk")]])]])]))).
Proof. vm_compute. reflexivity. Qed.

(** ** The theorems at concrete requests *)

Lemma delete_absent_id_is_404_witness :
  manager_gate manager "delete:drinks" = inr (granted "delete:drinks")
  /\ available latte_store = true
  /\ (forall d, In d (rows latte_store) -> Drink.id d <> 2)
  /\ handle manager_gate latte_store (mkRequest (DELETE_drinks 2) manager JNull)
     = (latte_store, unprocessable_404)
  /\ status unprocessable_404 = 404
  /\ status unprocessable_404 <> 200.
Proof.
  assert (Habsent : forall d, In d (rows latte_store) -> Drink.id d <> 2)
    by (intros d [<- | []]; vm_compute; discriminate).
  split; [reflexivity|]. split; [reflexivity|]. split; [exact Habsent|].
  exact (delete_absent_id_is_404 manager_gate latte_store manager JNull
           (granted "delete:drinks") 2 eq_refl eq_refl Habsent).
Defined.

Lemma store_failure_answered_with_status_200_witness :
  available (mkStore [] 1 false) = false
  /\ handle manager_gate (mkStore [] 1 false) (mkRequest GET_drinks None JNull)
     = (mkStore [] 1 false,
        mkResponse 200
          (Some (JObj [("success", JBool false); ("error", JNum 500);
                       ("message", JStr "Something went wrong.")]))).
Proof.
  split; [reflexivity|].
  exact (store_failure_answered_with_status_200 manager_gate
           (mkStore [] 1 false) None JNull eq_refl).
Defined.

Lemma patch_with_recipe_raises_witness :
  let drink :=
    Drink.mk 1 (JStr (Json.quote "Latte")) (Json.dumps latte_recipe) in
  let step := JObj [("parts", JNum 4)] in
  let fields := [("recipe", JList [step])] in
  manager_gate manager "patch:drinks" = inr (granted "patch:drinks")
  /\ Db.one_or_none latte_store 1 = Ok (Some drink)
  /\ Py.lookup "recipe" fields = Some (JList [step])
  /\ patch_drink (granted "patch:drinks") 1 latte_store
       (mkRequest (PATCH_drinks 1) manager (JObj fields))
     = (latte_store, Raise TypeError)
  /\ handle manager_gate latte_store
       (mkRequest (PATCH_drinks 1) manager (JObj fields))
     = (latte_store, server_error).
Proof.
  intros drink step fields.
  split; [reflexivity|]. split; [vm_compute; reflexivity|].
  split; [reflexivity|].
  exact (patch_with_recipe_raises manager_gate latte_store manager
           (granted "patch:drinks") 1 drink fields step []
           eq_refl eq_refl eq_refl).
Defined.

Lemma post_recipe_not_list_is_400_witness :
  let fields := [("title", JStr "Tea"); ("recipe", JStr "leaves")] in
  manager_gate manager "post:drinks" = inr (granted "post:drinks")
  /\ Py.isinstance_list (field "recipe" fields) = false
  /\ handle manager_gate empty_store
       (mkRequest POST_drinks manager (JObj fields))
     = (empty_store, mkResponse 400 None).
Proof.
  intros fields. split; [reflexivity|]. split; [reflexivity|].
  exact (post_recipe_not_list_is_400 manager_gate empty_store manager
           (granted "post:drinks") fields eq_refl eq_refl).
Defined.

Lemma post_without_title_creates_drink_witness :
  let steps := [JObj [("color", JStr "white"); ("name", JStr "milk");
                      ("parts", JNum 3)]] in
  let fields := [("recipe", JList steps)] in
  let answer :=
    handle manager_gate empty_store
      (mkRequest POST_drinks manager (JObj fields)) in
  manager_gate manager "post:drinks" = inr (granted "post:drinks")
  /\ available empty_store = true
  /\ Py.lookup "title" fields = None
  /\ Py.lookup "recipe" fields = Some (JList steps)
  /\ check_recipe_steps steps = Ok true
  /\ fst answer
     = mkStore
         (rows empty_store
          ++ [Drink.mk (next_id empty_store) (JStr "null")
                (Json.dumps (JList steps))])
         (next_id empty_store + 1) true
  /\ status (snd answer) = 200.
Proof.
  intros steps fields answer.
  split; [reflexivity|]. split; [reflexivity|]. split; [reflexivity|].
  split; [reflexivity|]. split; [reflexivity|].
  exact (post_without_title_creates_drink manager_gate empty_store manager
           (granted "post:drinks") fields steps
           eq_refl eq_refl eq_refl eq_refl eq_refl).
Defined.

Lemma post_stores_encoded_title_witness :
  let steps := [JObj [("color", JStr "white"); ("name", JStr "milk");
                      ("parts", JNum 3)]] in
  let stored :=
    Drink.mk 1 (JStr (Json.quote "Latte")) (Json.dumps (JList steps)) in
  let shown :=
    JObj [("id", JNum 1); ("title", JStr (Json.quote "Latte"));
          ("recipe", JList (map long_step steps))] in
  let st' := mkStore [stored] 2 true in
  manager_gate manager "post:drinks" = inr (granted "post:drinks")
  /\ manager_gate manager "get:drinks-detail"
     = inr (granted "get:drinks-detail")
  /\ available empty_store = true
  /\ mapM Drink.long (rows empty_store) = Ok []
  /\ well_formed (JObj latte_fields) = true
  /\ Py.lookup "title" latte_fields = Some (JStr "Latte")
  /\ Py.lookup "recipe" latte_fields = Some (JList steps)
  /\ check_recipe_steps steps = Ok true
  /\ handle manager_gate empty_store
       (mkRequest POST_drinks manager (JObj latte_fields))
     = (st', mkResponse 200
               (Some (JObj [("success", JBool true); ("drinks", shown)])))
  /\ handle manager_gate st' (mkRequest GET_drinks_detail manager JNull)
     = (st', mkResponse 200
               (Some (JObj [("success", JBool true);
                            ("drinks", JList [shown])])))
  /\ Json.quote "Latte" <> "Latte".
Proof.
  intros steps stored shown st'.
  split; [reflexivity|]. split; [reflexivity|]. split; [reflexivity|].
  split; [reflexivity|]. split; [reflexivity|]. split; [reflexivity|].
  split; [reflexivity|]. split; [reflexivity|].
  exact (post_stores_encoded_title manager_gate empty_store manager
           (granted "post:drinks") manager (granted "get:drinks-detail")
           latte_fields "Latte" steps []
           eq_refl eq_refl eq_refl eq_refl eq_refl eq_refl eq_refl eq_refl).
Defined.


Lemma post_validator_raises_witness :
  let good := JObj [("color", JStr "white"); ("name", JStr "milk");
                    ("parts", JNum 3)] in
  let bad := JObj [("color", JStr "brown"); ("name", JStr "coffee");
                   ("parts", JList [JNum 1])] in
  let fields := [("title", JStr "Latte"); ("recipe", JList [good; bad])] in
  manager_gate manager "post:drinks" = inr (granted "post:drinks")
  /\ Py.lookup "recipe" fields = Some (JList ([good] ++ bad :: []))
  /\ check_recipe_steps [good] = Ok true
  /\ step_fault bad = Some TypeError
  /\ step_fault (JNum 1) = Some AttributeError
  /\ check_drink_body (JObj fields) = Raise TypeError
  /\ (TypeError = AttributeError \/ TypeError = TypeError)
  /\ handle manager_gate empty_store
       (mkRequest POST_drinks manager (JObj fields))
     = (empty_store, server_error)
  /\ server_error <> mkResponse 400 None
  /\ data server_error
     = Some (JObj [("success", JBool false); ("error", JNum 500);
                   ("message", JStr "Something went wrong.")]).
Proof.
  intros good bad fields.
  split; [reflexivity|]. split; [reflexivity|]. split; [reflexivity|].
  split; [reflexivity|]. split; [reflexivity|].
  exact (post_validator_raises manager_gate empty_store manager
           (granted "post:drinks") fields [good] bad [] TypeError
           eq_refl eq_refl eq_refl eq_refl).
Defined.

Lemma patch_title_only_witness :
  let drink :=
    Drink.mk 1 (JStr (Json.quote "Latte")) (Json.dumps latte_recipe) in
  let fields := [("title", JStr "Mocha")] in
  let updated := Drink.mk 1 (JStr "Mocha") (Drink.recipe drink) in
  let answer :=
    handle manager_gate latte_store
      (mkRequest (PATCH_drinks 1) manager (JObj fields)) in
  manager_gate manager "patch:drinks" = inr (granted "patch:drinks")
  /\ available latte_store = true
  /\ find (fun d => Drink.id d =? 1) (rows latte_store) = Some drink
  /\ Py.lookup "title" fields = Some (JStr "Mocha")
  /\ "Mocha" <> EmptyString
  /\ Py.lookup "recipe" fields = None
  /\ rows (fst answer) = Db.replace_row (rows latte_store) updated
  /\ Db.one_or_none (fst answer) 1 = Ok (Some updated)
  /\ map Drink.recipe (rows (fst answer)) = map Drink.recipe (rows latte_store)
  /\ status (snd answer) = 200.
Proof.
  intros drink fields updated answer.
  assert (Hfind : find (fun d => Drink.id d =? 1) (rows latte_store)
                  = Some drink) by (vm_compute; reflexivity).
  assert (Hne : "Mocha" <> EmptyString) by discriminate.
  split; [reflexivity|]. split; [reflexivity|]. split; [exact Hfind|].
  split; [reflexivity|]. split; [exact Hne|]. split; [reflexivity|].
  exact (patch_title_only manager_gate latte_store manager
           (granted "patch:drinks") 1 drink fields "Mocha"
           eq_refl eq_refl Hfind eq_refl Hne eq_refl).
Defined.

(** ** Further properties of the module *)

(** *** [before_request] *)

Lemma lookup_setitem_same fields key v :
  Py.lookup key (Py.setitem fields key v) = Some v.
Proof.
  induction fields as [|[k x] fields IH]; cbn [Py.setitem Py.lookup].
  - now rewrite String.eqb_refl.
  - destruct (String.eqb k key) eqn:Hk; cbn [Py.lookup]; now rewrite Hk.
Qed.

Lemma lookup_setitem_other fields key key' v :
  key <> key' ->
  Py.lookup key' (Py.setitem fields key v) = Py.lookup key' fields.
Proof.
  intros Hne. induction fields as [|[k x] fields IH];
    cbn [Py.setitem Py.lookup].
  - apply String.eqb_neq in Hne. now rewrite Hne.
  - destruct (String.eqb k key) eqn:Hk; cbn [Py.lookup].
    + apply String.eqb_eq in Hk. subst k.
      apply String.eqb_neq in Hne. now rewrite Hne.
    + now rewrite IH.
Qed.

Lemma setitem_present fields key v :
  Py.lookup key fields = Some v -> Py.setitem fields key v = fields.
Proof.
  induction fields as [|[k x] fields IH]; cbn [Py.setitem Py.lookup];
    [discriminate|].
  destruct (String.eqb k key); [now intros [= ->]|].
  intros H. now rewrite (IH H).
Qed.

(** X1: [before_request] fixes the three headers it names, whatever the
    client sent under them, keeps every other header of the request
    (the Authorization header among them) and, run a second time,
    changes nothing. *)
Theorem before_request_sets_three_headers headers :
  let headers' := before_request headers in
  Py.lookup "Access-Control-Allow-Origin" headers' = Some (JStr "*")
  /\ Py.lookup "Access-Control-Allow-Methods" headers'
     = Some (JStr "POST, GET, OPTIONS, PATCH")
  /\ Py.lookup "Content-Type" headers' = Some (JStr "application/json")
  /\ Py.lookup "Authorization" headers' = Py.lookup "Authorization" headers
  /\ (forall key,
        key <> "Access-Control-Allow-Origin" ->
        key <> "Access-Control-Allow-Methods" ->
        key <> "Content-Type" ->
        Py.lookup key headers' = Py.lookup key headers)
  /\ before_request headers' = headers'.
Proof.
  intros headers'.
  assert (Horigin : Py.lookup "Access-Control-Allow-Origin" headers'
                    = Some (JStr "*")).
  { unfold headers', before_request.
    rewrite !lookup_setitem_other by discriminate.
    apply lookup_setitem_same. }
  assert (Hmethods : Py.lookup "Access-Control-Allow-Methods" headers'
                     = Some (JStr "POST, GET, OPTIONS, PATCH")).
  { unfold headers', before_request.
    rewrite lookup_setitem_other by discriminate.
    apply lookup_setitem_same. }
  assert (Htype : Py.lookup "Content-Type" headers'
                  = Some (JStr "application/json"))
    by apply lookup_setitem_same.
  assert (Hother : forall key,
             key <> "Access-Control-Allow-Origin" ->
             key <> "Access-Control-Allow-Methods" ->
             key <> "Content-Type" ->
             Py.lookup key headers' = Py.lookup key headers).
  { intros key H1 H2 H3. unfold headers', before_request.
    now rewrite !lookup_setitem_other by congruence. }
  repeat split; try assumption.
  - apply Hother; discriminate.
  - unfold before_request at 1.
    rewrite (setitem_present headers' _ _ Horigin).
    rewrite (setitem_present headers' _ _ Hmethods).
    now rewrite (setitem_present headers' _ _ Htype).
Qed.

(** *** Requests that the gate refuses *)

Lemma view_of_protected requirePermission r permission :
  permission_of r = Some permission ->
  exists f,
    view_of requirePermission r = requires_auth requirePermission permission f.
Proof.
  destruct r; intros [= <-]; eexists; reflexivity.
Qed.

(** X2: on every route that carries [@requires_auth], a request that the
    gate refuses is answered from the [AuthError] alone: status and
    [error] are its status code, [message] its description.  The body of
    the request is not validated, the store is not read (it may be
    unreachable) and is what it was. *)
Theorem refused_request_changes_nothing
  requirePermission st r auth body permission error :
  permission_of r = Some permission ->
  requirePermission auth permission = inl error ->
  handle requirePermission st (mkRequest r auth body)
  = (st,
     mkResponse (status_code error)
       (Some (JObj [("success", JBool false);
                    ("error", JNum (status_code error));
                    ("message", JStr (description error))]))).
Proof.
  intros Hperm Hgate.
  destruct (view_of_protected requirePermission r permission Hperm) as [f Hf].
  unfold handle. cbn [route]. rewrite Hf. unfold requires_auth.
  cbn [authorization]. now rewrite Hgate.
Qed.

(** *** PATCH: the order of the checks *)

Lemma handle_patch requirePermission st auth payload id body :
  requirePermission auth "patch:drinks" = inr payload ->
  handle requirePermission st (mkRequest (PATCH_drinks id) auth body)
  = match patch_drink payload id st (mkRequest (PATCH_drinks id) auth body) with
    | (st', Ok response) => (st', response)
    | (st', Raise e) => (st', handle_exception e)
    end.
Proof.
  intros Hgate.
  exact (handle_authorized requirePermission st (PATCH_drinks id) auth body
           "patch:drinks" (fun p => patch_drink p id) payload eq_refl Hgate).
Qed.

Lemma find_absent (rows : list Drink.t) id :
  (forall d, In d rows -> Drink.id d <> id) ->
  find (fun d => Drink.id d =? id) rows = None.
Proof.
  intros Habsent. destruct (find _ rows) as [d|] eqn:Hfind; [|reflexivity].
  apply find_some in Hfind. destruct Hfind as [Hin Heq].
  apply Z.eqb_eq in Heq. now elim (Habsent d Hin).
Qed.

(** X3: PATCH /drinks/{id} looks the drink up before it reads the body:
    for an id that no row carries the answer is the 404 of the handler,
    whatever the body is (missing, empty, malformed or well formed), and
    the store is what it was. *)
Theorem patch_absent_id_is_404 requirePermission st auth payload id body :
  requirePermission auth "patch:drinks" = inr payload ->
  available st = true ->
  (forall d, In d (rows st) -> Drink.id d <> id) ->
  handle requirePermission st (mkRequest (PATCH_drinks id) auth body)
  = (st, unprocessable_404).
Proof.
  intros Hgate Hup Habsent. rewrite (handle_patch _ _ _ payload _ _ Hgate).
  unfold patch_drink, Db.one_or_none.
  now rewrite Hup, (find_absent _ _ Habsent).
Qed.

(** X4: PATCH on an existing drink with a body that is false in Python's
    sense (no body, [{}], [[]], [0], the empty text) is turned down with
    400 and the store is what it was. *)
Theorem patch_falsy_body_is_400
  requirePermission st auth payload id drink body :
  requirePermission auth "patch:drinks" = inr payload ->
  Db.one_or_none st id = Ok (Some drink) ->
  Py.truthy body = false ->
  handle requirePermission st (mkRequest (PATCH_drinks id) auth body)
  = (st, mkResponse 400 None).
Proof.
  intros Hgate Hfound Hbody. rewrite (handle_patch _ _ _ payload _ _ Hgate).
  unfold patch_drink. rewrite Hfound. cbn [get_json]. now rewrite Hbody.
Qed.

(** X5: PATCH on an existing drink whose body carries a recipe that is
    true in Python's sense but no list (a text, a number, a dict) is
    turned down with 400.  A title sent along is assigned before the
    recipe is looked at, but never written: the store is what it was. *)
Theorem patch_recipe_not_list_is_400
  requirePermission st auth payload id drink fields :
  requirePermission auth "patch:drinks" = inr payload ->
  Db.one_or_none st id = Ok (Some drink) ->
  Py.truthy (field "recipe" fields) = true ->
  Py.isinstance_list (field "recipe" fields) = false ->
  handle requirePermission st (mkRequest (PATCH_drinks id) auth (JObj fields))
  = (st, mkResponse 400 None).
Proof.
  intros Hgate Hfound Htrue Hlist. rewrite (handle_patch _ _ _ payload _ _ Hgate).
  unfold patch_drink. rewrite Hfound. cbn [get_json].
  replace (Py.truthy (JObj fields)) with true
    by (destruct fields; [discriminate|reflexivity]).
  cbn [negb]. unfold patch_fields. rewrite !get_field. cbn [bind].
  rewrite Htrue. destruct (field "recipe" fields); try reflexivity.
  discriminate.
Qed.

Lemma replace_row_found (rows : list Drink.t) id drink :
  find (fun d => Drink.id d =? id) rows = Some drink ->
  Db.replace_row rows drink = rows.
Proof.
  intros Hfind.
  assert (Hid : Drink.id drink = id)
    by (apply find_some in Hfind; now apply Z.eqb_eq).
  induction rows as [|r rows IH]; [reflexivity|].
  cbn [find Db.replace_row] in *. rewrite Hid.
  destruct (Drink.id r =? id); [now injection Hfind as ->|].
  now rewrite IH.
Qed.

(** What PATCH does with a non-empty dict whose recipe is false in
    Python's sense (absent, null, [[]], the empty text): the title, when
    it is true, is the only thing written. *)
Lemma patch_without_recipe
  requirePermission st auth payload id drink fields :
  requirePermission auth "patch:drinks" = inr payload ->
  available st = true ->
  find (fun d => Drink.id d =? id) (rows st) = Some drink ->
  fields <> [] ->
  Py.truthy (field "recipe" fields) = false ->
  let updated :=
    if Py.truthy (field "title" fields)
    then Drink.mk (Drink.id drink) (field "title" fields) (Drink.recipe drink)
    else drink in
  handle requirePermission st (mkRequest (PATCH_drinks id) auth (JObj fields))
  = (mkStore (Db.replace_row (rows st) updated) (next_id st) true,
     match Drink.long updated with
     | Ok long =>
         jsonify (JObj [("success", JBool true); ("drinks", JList [long])])
     | Raise e => handle_exception e
     end).
Proof.
  intros Hgate Hup Hfind Hne Hrecipe updated.
  rewrite (handle_patch _ _ _ payload _ _ Hgate).
  unfold patch_drink, Db.one_or_none. rewrite Hup, Hfind. cbn [get_json].
  replace (Py.truthy (JObj fields)) with true
    by (destruct fields; [now elim Hne|reflexivity]).
  cbn [negb]. unfold patch_fields. rewrite !get_field. cbn [bind].
  rewrite Hrecipe. fold updated. unfold Db.update. rewrite Hup.
  destruct (Drink.long updated); reflexivity.
Qed.

Lemma store_eta st : available st = true ->
  mkStore (rows st) (next_id st) true = st.
Proof. destruct st as [rs n a]. cbn. now intros ->. Qed.

(** X6: PATCH on an existing drink with a non-empty dict that carries
    neither a true title nor a true recipe (only other keys, or a null
    or empty title) is a success that writes nothing new: the store
    is what it was and the status is 200. *)
Theorem patch_without_fields_is_noop
  requirePermission st auth payload id drink fields :
  requirePermission auth "patch:drinks" = inr payload ->
  available st = true ->
  find (fun d => Drink.id d =? id) (rows st) = Some drink ->
  fields <> [] ->
  Py.truthy (field "title" fields) = false ->
  Py.truthy (field "recipe" fields) = false ->
  let answer :=
    handle requirePermission st
      (mkRequest (PATCH_drinks id) auth (JObj fields)) in
  fst answer = st /\ status (snd answer) = 200.
Proof.
  intros Hgate Hup Hfind Hne Htitle Hrecipe answer. unfold answer.
  rewrite (patch_without_recipe _ _ _ _ _ _ _ Hgate Hup Hfind Hne Hrecipe).
  rewrite Htitle. cbn [fst snd].
  rewrite (replace_row_found _ _ _ Hfind), (store_eta _ Hup).
  split; [reflexivity|].
  destruct (Drink.long drink) as [long|e] eqn:Hlong; [reflexivity|].
  now rewrite (long_raise_is_internal _ _ Hlong).
Qed.


(** *** When the store cannot be reached *)

Lemma check_ok_is_dict body :
  check_drink_body body = Ok true -> exists fields, body = JObj fields.
Proof.
  unfold check_drink_body.
  destruct body as [|b|n|s|l|fields]; try discriminate;
    try (destruct (negb (Py.truthy _)); discriminate).
  intros _. now exists fields.
Qed.

(** X8: with the store out of reach, POST /drinks with a body that
    passes validation is answered with the 422 of the handler (the
    failed insert is caught in the view) and no record is created. *)
Theorem post_store_failure_is_422 requirePermission st auth payload body :
  requirePermission auth "post:drinks" = inr payload ->
  available st = false ->
  check_drink_body body = Ok true ->
  handle requirePermission st (mkRequest POST_drinks auth body)
  = (st, mkResponse 422
           (Some (JObj [("success", JBool false); ("error", JNum 422);
                        ("message", JStr "unprocessable")]))).
Proof.
  intros Hgate Hdown Hcheck.
  destruct (check_ok_is_dict _ Hcheck) as [fields ->].
  rewrite (handle_authorized requirePermission st POST_drinks auth
             (JObj fields) "post:drinks" post_drink payload eq_refl Hgate).
  unfold post_drink. cbn [get_json]. rewrite Hcheck, !get_field.
  cbn [bind]. unfold Db.insert. now rewrite Hdown.
Qed.

(** X9: with the store out of reach, GET /drinks-detail, PATCH and
    DELETE query the store before they look at anything else and are
    answered through the handler of 500, whatever the body and the id. *)
Theorem store_failure_on_lookup_routes
  requirePermission st r auth payload body permission :
  available st = false ->
  r <> POST_drinks ->
  permission_of r = Some permission ->
  requirePermission auth permission = inr payload ->
  handle requirePermission st (mkRequest r auth body) = (st, server_error).
Proof.
  intros Hdown Hroute Hperm Hgate.
  destruct r as [| | |id|id]; try discriminate; [|now elim Hroute| |];
    injection Hperm as <-.
  - rewrite (handle_authorized requirePermission st GET_drinks_detail auth
               body "get:drinks-detail" get_drinks_details payload eq_refl
               Hgate).
    unfold get_drinks_details, Db.query_all. now rewrite Hdown.
  - rewrite (handle_patch _ _ _ payload _ _ Hgate).
    unfold patch_drink, Db.one_or_none. now rewrite Hdown.
  - rewrite (handle_authorized requirePermission st (DELETE_drinks id) auth
               body "delete:drinks" (fun p => delete_drinks p id) payload
               eq_refl Hgate).
    unfold delete_drinks, Db.one_or_none. now rewrite Hdown.
Qed.

(** *** DELETE of an existing drink *)

Lemma find_after_remove_other (rows : list Drink.t) d id' :
  Drink.id d <> id' ->
  find (fun r => Drink.id r =? id') (Db.remove_row rows d)
  = find (fun r => Drink.id r =? id') rows.
Proof.
  intros Hne. induction rows as [|r rows IH]; [reflexivity|].
  cbn [Db.remove_row find]. destruct (Drink.id r =? Drink.id d) eqn:Hr.
  - apply Z.eqb_eq in Hr.
    replace (Drink.id r =? id') with false; [reflexivity|].
    symmetry. apply Z.eqb_neq. congruence.
  - cbn [find]. now rewrite IH.
Qed.

Lemma find_after_remove_same (rows : list Drink.t) d :
  NoDup (map Drink.id rows) ->
  find (fun r => Drink.id r =? Drink.id d) (Db.remove_row rows d) = None.
Proof.
  induction rows as [|r rows IH]; [reflexivity|].
  cbn [map Db.remove_row]. intros Hnodup. inversion Hnodup as [|i l Hnotin Hrest].
  subst. destruct (Drink.id r =? Drink.id d) eqn:Hr.
  - apply Z.eqb_eq in Hr. apply find_absent. intros x Hin Hx.
    apply Hnotin. rewrite Hr, <- Hx. now apply in_map.
  - cbn [find]. rewrite Hr. now apply IH.
Qed.

(** X10: DELETE /drinks/{id} of an existing drink answers 200 with
    [{success: true, delete: id}] and removes the row of that id.  When
    the ids of the table are a primary key, the id is gone afterwards,
    every other id is found with the row it had, and a second DELETE of
    the same id gets the 404 of the handler. *)
Theorem delete_existing_drink
  requirePermission st auth payload id drink body :
  requirePermission auth "delete:drinks" = inr payload ->
  available st = true ->
  find (fun d => Drink.id d =? id) (rows st) = Some drink ->
  NoDup (ids st) ->
  let request := mkRequest (DELETE_drinks id) auth body in
  let st' := mkStore (Db.remove_row (rows st) drink) (next_id st) true in
  handle requirePermission st request
  = (st', mkResponse 200
            (Some (JObj [("success", JBool true); ("delete", JNum id)])))
  /\ Db.one_or_none st' id = Ok None
  /\ (forall id', id' <> id -> Db.one_or_none st' id' = Db.one_or_none st id')
  /\ handle requirePermission st' request = (st', unprocessable_404).
Proof.
  intros Hgate Hup Hfind Hkey request st'.
  assert (Hid : Drink.id drink = id)
    by (apply find_some in Hfind; now apply Z.eqb_eq).
  assert (Hgone : find (fun d => Drink.id d =? id) (rows st') = None)
    by (rewrite <- Hid; now apply find_after_remove_same).
  assert (Hhandle : forall s,
    handle requirePermission s request
    = match delete_drinks payload id s request with
      | (s', Ok response) => (s', response)
      | (s', Raise e) => (s', handle_exception e)
      end).
  { intros s.
    exact (handle_authorized requirePermission s (DELETE_drinks id) auth body
             "delete:drinks" (fun p => delete_drinks p id) payload eq_refl
             Hgate). }
  split; [|split; [|split]].
  - rewrite Hhandle. unfold delete_drinks, Db.one_or_none, Db.delete.
    now rewrite Hup, Hfind.
  - unfold Db.one_or_none. cbn [available]. now rewrite Hgone.
  - intros id' Hne. unfold Db.one_or_none. cbn [available rows st'].
    rewrite Hup. rewrite find_after_remove_other by congruence. reflexivity.
  - rewrite Hhandle. unfold delete_drinks, Db.one_or_none. cbn [available].
    now rewrite Hgone.
Qed.

(** *** What a request may change *)

Lemma get_raise v key e : Py.get v key = Raise e -> e = AttributeError.
Proof.
  destruct v as [| | | | |fields]; cbn [Py.get]; try (now intros [= <-]).
  destruct (Py.lookup key fields); discriminate.
Qed.

Lemma patch_fields_ok body drink updated :
  patch_fields body drink = Ok updated ->
  Drink.id updated = Drink.id drink
  /\ Drink.recipe updated = Drink.recipe drink.
Proof.
  unfold patch_fields.
  destruct (Py.get body "title") as [title|]; cbn [bind]; [|discriminate].
  destruct (Py.get body "recipe") as [recipe|]; cbn [bind]; [|discriminate].
  destruct (Py.truthy recipe) eqn:Hrecipe.
  - destruct recipe as [| | | |steps|]; try discriminate.
    destruct steps as [|x steps]; discriminate.
  - intros [= <-]. destruct (Py.truthy title); split; reflexivity.
Qed.

Lemma patch_fields_raise body drink e :
  patch_fields body drink = Raise e ->
  e = AttributeError \/ e = TypeError \/ e = HTTPException 400.
Proof.
  unfold patch_fields.
  destruct (Py.get body "title") as [title|e'] eqn:Htitle; cbn [bind].
  - destruct (Py.get body "recipe") as [recipe|e''] eqn:Hrec; cbn [bind].
    + destruct (Py.truthy recipe); [|discriminate].
      destruct recipe as [| | | |steps|]; try (intros [= <-]; auto).
      destruct steps as [|x steps]; [discriminate|]. intros [= <-]. auto.
    + intros [= <-]. left. exact (get_raise _ _ _ Hrec).
  - intros [= <-]. left. exact (get_raise _ _ _ Htitle).
Qed.

Lemma ids_after_replace (rows : list Drink.t) d :
  map Drink.id (Db.replace_row rows d) = map Drink.id rows.
Proof.
  induction rows as [|r rows IH]; [reflexivity|].
  cbn [Db.replace_row]. destruct (Drink.id r =? Drink.id d) eqn:Hr.
  - apply Z.eqb_eq in Hr. cbn [map]. now rewrite Hr.
  - cbn [map]. now rewrite IH.
Qed.

Lemma ids_after_remove (rows : list Drink.t) d i :
  In i (map Drink.id (Db.remove_row rows d)) -> In i (map Drink.id rows).
Proof.
  induction rows as [|r rows IH]; [trivial|].
  cbn [Db.remove_row]. destruct (Drink.id r =? Drink.id d).
  - intros H. now right.
  - cbn [map]. intros [H|H]; [now left|right; now apply IH].
Qed.

Lemma nodup_after_remove (rows : list Drink.t) d :
  NoDup (map Drink.id rows) -> NoDup (map Drink.id (Db.remove_row rows d)).
Proof.
  induction rows as [|r rows IH]; [trivial|].
  cbn [map Db.remove_row]. intros H. inversion H as [|i l Hnotin Hrest]. subst.
  destruct (Drink.id r =? Drink.id d); [exact Hrest|].
  cbn [map]. constructor; [|now apply IH].
  intros Hin. apply Hnotin. now apply ids_after_remove in Hin.
Qed.

(** The store that a request leaves, by route. *)
Lemma handle_effect requirePermission st req :
  let st' := fst (handle requirePermission st req) in
  match route req with
  | GET_drinks | GET_drinks_detail => st' = st
  | POST_drinks =>
      st' = st
      \/ exists title recipe,
           st' = mkStore
                   (rows st ++ [Drink.mk (next_id st) (JStr title) recipe])
                   (next_id st + 1) true
  | PATCH_drinks id =>
      st' = st
      \/ exists drink updated,
           Db.one_or_none st id = Ok (Some drink)
           /\ Drink.id updated = id
           /\ Drink.recipe updated = Drink.recipe drink
           /\ st' = mkStore (Db.replace_row (rows st) updated) (next_id st) true
  | DELETE_drinks id =>
      st' = st
      \/ exists drink,
           Db.one_or_none st id = Ok (Some drink)
           /\ st' = mkStore (Db.remove_row (rows st) drink) (next_id st) true
  end.
Proof.
  destruct req as [r auth body]. cbn [route]. unfold handle. cbn [route].
  destruct r as [| | |id|id]; cbn [view_of]; unfold requires_auth;
    cbn [authorization].
  - unfold get_drinks. destruct (Db.query_all st); [|reflexivity].
    cbn [fst]. destruct (mapM Drink.short a); reflexivity.
  - destruct (requirePermission auth _); [reflexivity|].
    unfold get_drinks_details. destruct (Db.query_all st); [|reflexivity].
    destruct (mapM Drink.long a); reflexivity.
  - destruct (requirePermission auth _); [now left|].
    unfold post_drink. cbn [get_json].
    destruct (check_drink_body body) as [[]|]; try (now left).
    destruct (Py.get body "title"); cbn [bind]; [|now left].
    destruct (Py.get body "recipe"); cbn [bind]; [|now left].
    unfold Db.insert. destruct (available st); [|now left].
    right. eexists _, _.
    destruct (Drink.long _); reflexivity.
  - destruct (requirePermission auth _); [now left|].
    unfold patch_drink.
    destruct (Db.one_or_none st id) as [[drink|]|] eqn:Hfound;
      try (now left).
    cbn [get_json]. destruct (negb (Py.truthy body)); [now left|].
    destruct (patch_fields body drink) as [updated|] eqn:Hpatch; [|now left].
    destruct (patch_fields_ok _ _ _ Hpatch) as [Hid Hrecipe].
    assert (Hup : available st = true)
      by (unfold Db.one_or_none in Hfound; destruct (available st);
          [reflexivity|discriminate]).
    assert (Hdrink : Drink.id drink = id).
    { unfold Db.one_or_none in Hfound. rewrite Hup in Hfound.
      injection Hfound as Hfind. apply find_some in Hfind.
      now apply Z.eqb_eq. }
    unfold Db.update. rewrite Hup. right. exists drink, updated.
    repeat split; try congruence.
    destruct (Drink.long updated); reflexivity.
  - destruct (requirePermission auth _); [now left|].
    unfold delete_drinks.
    destruct (Db.one_or_none st id) as [[drink|]|] eqn:Hfound;
      try (now left).
    assert (Hup : available st = true)
      by (unfold Db.one_or_none in Hfound; destruct (available st);
          [reflexivity|discriminate]).
    unfold Db.delete. rewrite Hup. right. now exists drink.
Qed.

Lemma found_row st id drink :
  Db.one_or_none st id = Ok (Some drink) ->
  find (fun d => Drink.id d =? id) (rows st) = Some drink.
Proof.
  unfold Db.one_or_none. destruct (available st); [|discriminate].
  now intros [= ->].
Qed.

(** X11: what a request can change is fixed by its route, whatever the
    token, the body and the state of the store.  The two GET routes
    change nothing.  POST changes no row that was there: it leaves the
    rows as they were or appends one row under the next id.  PATCH
    never changes the id or the recipe text of any row, nor the number
    of rows: at most one title.  DELETE leaves the rows as they were or
    removes the one row that the lookup of the id found. *)
Theorem request_effect_by_route requirePermission st req :
  let st' := fst (handle requirePermission st req) in
  match route req with
  | GET_drinks | GET_drinks_detail => st' = st
  | POST_drinks =>
      rows st' = rows st
      \/ exists title recipe,
           rows st'
           = (rows st ++ [Drink.mk (next_id st) (JStr title) recipe])%list
           /\ next_id st' = next_id st + 1
  | PATCH_drinks id =>
      ids st' = ids st
      /\ map Drink.recipe (rows st') = map Drink.recipe (rows st)
      /\ next_id st' = next_id st
  | DELETE_drinks id =>
      rows st' = rows st
      \/ exists drink,
           Db.one_or_none st id = Ok (Some drink)
           /\ rows st' = Db.remove_row (rows st) drink
  end.
Proof.
  intros st'. pose proof (handle_effect requirePermission st req) as H.
  cbv zeta in H. fold st' in H. destruct (route req) as [| | |id|id].
  - exact H.
  - exact H.
  - destruct H as [-> | [title [recipe ->]]]; [now left|].
    right. now exists title, recipe.
  - destruct H as [-> | [drink [updated [Hfound [Hid [Hrecipe ->]]]]]];
      [repeat split|].
    unfold ids. cbn [rows next_id]. split; [apply ids_after_replace|].
    split; [|reflexivity].
    apply recipes_after_replace with (id := id) (drink := drink);
      [exact Hid|now apply found_row|exact Hrecipe].
  - destruct H as [-> | [drink [Hfound ->]]]; [now left|].
    right. now exists drink.
Qed.

(** X12: every request keeps the table well keyed: when no two rows
    share an id and every id is below the next id to hand out, the same
    holds for the store that the request leaves, whatever the route,
    the token and the body. *)
Theorem requests_keep_store_ok requirePermission st req :
  store_ok st -> store_ok (fst (handle requirePermission st req)).
Proof.
  intros [Hkey Hbelow].
  pose proof (handle_effect requirePermission st req) as H. cbv zeta in H.
  destruct (route req) as [| | |id|id].
  - rewrite H. now split.
  - rewrite H. now split.
  - destruct H as [-> | [title [recipe ->]]]; [now split|].
    unfold store_ok, ids in *. cbn [rows next_id].
    rewrite map_app. cbn [map Drink.id]. split.
    + apply NoDup_app; [exact Hkey|repeat constructor; intros []|].
      intros i Hin [<- | []]. rewrite Forall_forall in Hbelow.
      specialize (Hbelow _ Hin). lia.
    + apply Forall_app. split.
      * apply Forall_impl with (2 := Hbelow). intros i Hi. lia.
      * repeat constructor. lia.
  - destruct H as [-> | [drink [updated [_ [_ [_ ->]]]]]]; [now split|].
    unfold store_ok, ids in *. cbn [rows next_id].
    rewrite ids_after_replace. now split.
  - destruct H as [-> | [drink [_ ->]]]; [now split|].
    unfold store_ok, ids in *. cbn [rows next_id]. split.
    + now apply nodup_after_remove.
    + rewrite Forall_forall in *. intros i Hin.
      apply Hbelow. now apply ids_after_remove in Hin.
Qed.

(** *** POST followed by DELETE *)

Lemma find_app_fresh (rows : list Drink.t) d :
  (forall r, In r rows -> Drink.id r <> Drink.id d) ->
  find (fun r => Drink.id r =? Drink.id d) (rows ++ [d]) = Some d.
Proof.
  induction rows as [|r rows IH]; intros Hfresh; cbn [app find].
  - now rewrite Z.eqb_refl.
  - replace (Drink.id r =? Drink.id d) with false.
    + apply IH. intros x Hx. apply Hfresh. now right.
    + symmetry. apply Z.eqb_neq. apply Hfresh. now left.
Qed.

Lemma remove_app_fresh (rows : list Drink.t) d :
  (forall r, In r rows -> Drink.id r <> Drink.id d) ->
  Db.remove_row (rows ++ [d]) d = rows.
Proof.
  induction rows as [|r rows IH]; intros Hfresh; cbn [app Db.remove_row].
  - now rewrite Z.eqb_refl.
  - replace (Drink.id r =? Drink.id d) with false.
    + rewrite IH; [reflexivity|]. intros x Hx. apply Hfresh. now right.
    + symmetry. apply Z.eqb_neq. apply Hfresh. now left.
Qed.

(** X13: on a well keyed, reachable store, a POST that passes validation
    followed by a DELETE of the id that the POST handed out brings the
    rows of the table back to what they were; the DELETE is answered
    with 200 and that id.  Only the counter of ids has moved on. *)
Theorem post_then_delete_restores_rows
  requirePermission st auth payload auth' payload' body body' :
  requirePermission auth "post:drinks" = inr payload ->
  requirePermission auth' "delete:drinks" = inr payload' ->
  available st = true ->
  store_ok st ->
  check_drink_body body = Ok true ->
  let posted :=
    fst (handle requirePermission st (mkRequest POST_drinks auth body)) in
  let answer :=
    handle requirePermission posted
      (mkRequest (DELETE_drinks (next_id st)) auth' body') in
  rows (fst answer) = rows st
  /\ next_id (fst answer) = next_id st + 1
  /\ snd answer
     = mkResponse 200
         (Some (JObj [("success", JBool true);
                      ("delete", JNum (next_id st))])).
Proof.
  intros Hpost Hdelete Hup [_ Hbelow] Hcheck posted answer.
  destruct (check_ok_is_dict _ Hcheck) as [fields ->].
  assert (Hposted : posted =
    mkStore
      (rows st ++ [Drink.mk (next_id st)
                     (JStr (Json.dumps (field "title" fields)))
                     (Json.dumps (field "recipe" fields))])
      (next_id st + 1) true)
    by (unfold posted; now rewrite (post_accepted _ _ _ _ _ Hpost Hup Hcheck)).
  set (drink := Drink.mk (next_id st)
                  (JStr (Json.dumps (field "title" fields)))
                  (Json.dumps (field "recipe" fields))) in *.
  assert (Hfresh : forall r, In r (rows st) -> Drink.id r <> Drink.id drink).
  { intros r Hr. cbn [drink Drink.id]. unfold ids in Hbelow.
    rewrite Forall_forall in Hbelow.
    specialize (Hbelow (Drink.id r) (in_map Drink.id _ _ Hr)). lia. }
  unfold answer.
  rewrite (handle_authorized requirePermission posted
             (DELETE_drinks (next_id st)) auth' body' "delete:drinks"
             (fun p => delete_drinks p (next_id st)) payload' eq_refl Hdelete).
  unfold delete_drinks, Db.one_or_none, Db.delete. rewrite Hposted.
  cbn [available rows next_id].
  assert (Hfind : find (fun d => Drink.id d =? next_id st) (rows st ++ [drink])
                  = Some drink) by exact (find_app_fresh _ _ Hfresh).
  rewrite !Hfind. cbn [fst snd rows next_id].
  now rewrite (remove_app_fresh _ _ Hfresh).
Qed.

(** *** What the validator accepts, and how it fails *)

Lemma field_is_list fields steps :
  field "recipe" fields = JList steps <->
  Py.lookup "recipe" fields = Some (JList steps).
Proof.
  unfold field. destruct (Py.lookup "recipe" fields); split;
    try discriminate; congruence.
Qed.

Lemma check_steps_ok_iff steps :
  check_recipe_steps steps = Ok true <-> forallb valid_step steps = true.
Proof.
  induction steps as [|r steps IH]; [now split|].
  cbn [check_recipe_steps forallb].
  destruct r as [| | | | |fields]; cbn [Py.get bind valid_step andb];
    try (split; discriminate).
  change (match Py.lookup "color" fields with
          | Some x => Ok x | None => Ok JNull end)
    with (Py.get (JObj fields) "color").
  change (match Py.lookup "name" fields with
          | Some x => Ok x | None => Ok JNull end)
    with (Py.get (JObj fields) "name").
  change (match Py.lookup "parts" fields with
          | Some x => Ok x | None => Ok JNull end)
    with (Py.get (JObj fields) "parts").
  rewrite !get_field. cbn [bind].
  unfold parts_accepted, int_parseable.
  destruct (Py.truthy (field "color" fields)); cbn [negb orb andb];
    [|split; discriminate].
  destruct (Py.truthy (field "name" fields)); cbn [negb orb andb];
    [|split; discriminate].
  destruct (Py.truthy (field "parts" fields)); cbn [negb orb andb];
    [|split; discriminate].
  destruct (Py.int (field "parts" fields)) as [n|e]; cbn [andb].
  - exact IH.
  - destruct e; split; discriminate.
Qed.

(** X14: [check_drink_body] returns [True] exactly for a dict whose
    [recipe] is a list in which every step is a dict with a true
    [color], a true [name] and a true [parts] that [int] accepts.  The
    list may be empty; the title and any other key play no part. *)
Theorem check_drink_body_accepts_iff body :
  check_drink_body body = Ok true
  <-> exists fields steps,
        body = JObj fields
        /\ Py.lookup "recipe" fields = Some (JList steps)
        /\ forallb valid_step steps = true.
Proof.
  split.
  - intros Hcheck. destruct (check_ok_is_dict _ Hcheck) as [fields ->].
    exists fields. unfold check_drink_body in Hcheck.
    destruct (negb (Py.truthy (JObj fields))); [discriminate|].
    rewrite !get_field in Hcheck. cbn [bind] in Hcheck.
    destruct (field "recipe" fields) as [| | | |steps|] eqn:Hrecipe;
      try discriminate.
    exists steps. split; [reflexivity|]. split.
    + now apply field_is_list.
    + now apply check_steps_ok_iff.
  - intros [fields [steps [-> [Hrecipe Hsteps]]]].
    rewrite (check_drink_body_dict _ _ Hrecipe).
    now apply check_steps_ok_iff.
Qed.

Lemma check_steps_raise steps e :
  check_recipe_steps steps = Raise e -> e = AttributeError \/ e = TypeError.
Proof.
  induction steps as [|r steps IH]; [discriminate|].
  cbn [check_recipe_steps].
  destruct (Py.get r "color") as [color|e'] eqn:Hcolor; cbn [bind];
    [|intros [= <-]; left; exact (get_raise _ _ _ Hcolor)].
  destruct (Py.get r "name") as [name|e'] eqn:Hname; cbn [bind];
    [|intros [= <-]; left; exact (get_raise _ _ _ Hname)].
  destruct (Py.get r "parts") as [parts|e'] eqn:Hparts; cbn [bind];
    [|intros [= <-]; left; exact (get_raise _ _ _ Hparts)].
  destruct (_ || _); [discriminate|].
  destruct (Py.int parts) as [n|e'] eqn:Hint; [exact IH|].
  assert (He : e' = ValueError \/ e' = TypeError).
  { destruct parts; cbn [Py.int] in Hint; try (injection Hint as <-; auto);
      try discriminate.
    destruct (Py.int_of_str s); [discriminate|]. injection Hint as <-. auto. }
  destruct He as [-> | ->]; [discriminate|]. intros [= <-]. now right.
Qed.

Lemma check_drink_body_raises_sources body e :
  check_drink_body body = Raise e -> e = AttributeError \/ e = TypeError.
Proof.
  intros Hraise. unfold check_drink_body in Hraise.
  destruct (negb (Py.truthy body)); [discriminate|].
  destruct (Py.get body "title") as [title|e'] eqn:Htitle; cbn [bind] in *;
    [|injection Hraise as <-; left; exact (get_raise _ _ _ Htitle)].
  destruct (Py.get body "recipe") as [recipe|e'] eqn:Hrecipe;
    cbn [bind] in *;
    [|injection Hraise as <-; left; exact (get_raise _ _ _ Hrecipe)].
  destruct recipe; try discriminate. now apply check_steps_raise in Hraise.
Qed.


(** X16: the loop of the validator is decided by the first step that
    does not pass: when the steps before it pass, the outcome for the
    whole recipe is the outcome for that step alone ([False], or the
    exception it raises), and the steps after it are not looked at. *)
Theorem first_failing_step_decides pre bad rest :
  check_recipe_steps pre = Ok true ->
  check_recipe_steps [bad] <> Ok true ->
  check_recipe_steps (pre ++ bad :: rest) = check_recipe_steps [bad].
Proof.
  intros Hpre Hbad. rewrite (check_recipe_steps_app _ _ Hpre).
  cbn [check_recipe_steps] in *.
  destruct (Py.get bad "color") as [color|]; cbn [bind] in *; [|reflexivity].
  destruct (Py.get bad "name") as [name|]; cbn [bind] in *; [|reflexivity].
  destruct (Py.get bad "parts") as [parts|]; cbn [bind] in *; [|reflexivity].
  destruct (_ || _); [reflexivity|].
  destruct (Py.int parts) as [n|e]; [now elim Hbad|reflexivity].
Qed.

(** *** [parts] given as text *)







(** *** The recipe text that POST stores *)

(** X18: the recipe text that a POST stores decodes to the recipe of the
    request, step by step and key by key, in the order sent and with
    any further keys the steps carry. *)
Theorem stored_recipe_decodes
  requirePermission st auth payload fields steps :
  requirePermission auth "post:drinks" = inr payload ->
  available st = true ->
  well_formed (JObj fields) = true ->
  Py.lookup "recipe" fields = Some (JList steps) ->
  check_recipe_steps steps = Ok true ->
  exists drink,
    rows (fst (handle requirePermission st
                 (mkRequest POST_drinks auth (JObj fields))))
    = (rows st ++ [drink])%list
    /\ Drink.id drink = next_id st
    /\ Drink.decode (Drink.recipe drink) = Ok steps.
Proof.
  intros Hgate Hup Hwf Hrecipe Hsteps.
  assert (Hcheck : check_drink_body (JObj fields) = Ok true)
    by now rewrite (check_drink_body_dict _ _ Hrecipe).
  rewrite (post_accepted _ _ _ _ _ Hgate Hup Hcheck). cbn [fst rows].
  eexists. split; [reflexivity|]. split; [reflexivity|].
  cbn [Drink.recipe]. unfold field. rewrite Hrecipe. unfold Drink.decode.
  now rewrite (loads_dumps _ (well_formed_lookup _ _ _ Hwf Hrecipe)).
Qed.

(** *** The answers a route can give *)

Lemma jsonify_success rest :
  is_success (jsonify (JObj (("success", JBool true) :: rest))).
Proof. split; [reflexivity|]. now exists rest. Qed.

(** X19: the answers a route can give, whatever the token, the body and
    the state of the store.  GET /drinks answers with a success or
    through the handler of 500, nothing else.  No route but POST ever
    answers with the 422 handler, only PATCH and DELETE with the 404
    handler, only POST and PATCH with a bare 400; a refusal comes only
    from a route with [@requires_auth] and only when the gate refused. *)
Theorem answers_by_route requirePermission st req :
  let answer := snd (handle requirePermission st req) in
  match route req with
  | GET_drinks => is_success answer \/ answer = server_error
  | GET_drinks_detail =>
      is_success answer \/ answer = server_error
      \/ is_refusal requirePermission req answer
  | POST_drinks =>
      is_success answer \/ answer = mkResponse 400 None
      \/ answer = unprocessable \/ answer = server_error
      \/ is_refusal requirePermission req answer
  | PATCH_drinks _ =>
      is_success answer \/ answer = mkResponse 400 None
      \/ answer = unprocessable_404 \/ answer = server_error
      \/ is_refusal requirePermission req answer
  | DELETE_drinks _ =>
      is_success answer \/ answer = unprocessable_404
      \/ answer = server_error
      \/ is_refusal requirePermission req answer
  end.
Proof.
  destruct req as [r auth body]. cbn [route]. unfold handle. cbn [route].
  destruct r as [| | |id|id]; cbn [view_of]; unfold requires_auth;
    cbn [authorization].
  - unfold get_drinks. destruct (Db.query_all st) as [drinks|];
      [|now right].
    destruct (mapM Drink.short drinks) as [shorts|e] eqn:Hm; cbn [bind snd].
    + left. apply jsonify_success.
    + right. apply mapM_raise in Hm. destruct Hm as [d [_ Hd]].
      now apply short_raise_is_internal in Hd.
  - destruct (requirePermission auth _) as [error|payload] eqn:Hgate.
    + right. right. exists "get:drinks-detail", error. now repeat split.
    + unfold get_drinks_details. destruct (Db.query_all st) as [drinks|];
        [|right; now left].
      destruct (mapM Drink.long drinks) as [longs|e] eqn:Hm; cbn [bind snd].
      * left. apply jsonify_success.
      * right. left. apply mapM_raise in Hm. destruct Hm as [d [_ Hd]].
        now apply long_raise_is_internal in Hd.
  - destruct (requirePermission auth _) as [error|payload] eqn:Hgate.
    + do 4 right. exists "post:drinks", error. now repeat split.
    + unfold post_drink. cbn [get_json].
      destruct (check_drink_body body) as [[]|e] eqn:Hcheck.
      * destruct (check_ok_is_dict _ Hcheck) as [fields ->].
        rewrite !get_field. cbn [bind]. unfold Db.insert.
        destruct (available st); [|right; right; now left].
        destruct (Drink.long _) as [long|e] eqn:Hlong; cbn [bind snd].
        -- left. apply jsonify_success.
        -- do 3 right. left. now apply long_raise_is_internal in Hlong.
      * right. now left.
      * do 3 right. left. cbn [snd].
        now destruct (check_drink_body_raises_sources _ _ Hcheck) as [-> | ->].
  - destruct (requirePermission auth _) as [error|payload] eqn:Hgate.
    + do 4 right. exists "patch:drinks", error. now repeat split.
    + unfold patch_drink.
      destruct (Db.one_or_none st id) as [[drink|]|];
        [|right; right; now left|do 3 right; now left].
      cbn [get_json]. destruct (negb (Py.truthy body)); [right; now left|].
      destruct (patch_fields body drink) as [updated|e] eqn:Hpatch.
      * destruct (Db.update st updated) as [[st' d]|];
          [|do 3 right; now left].
        destruct (Drink.long d) as [long|e] eqn:Hlong; cbn [bind snd].
        -- left. apply jsonify_success.
        -- do 3 right. left. now apply long_raise_is_internal in Hlong.
      * cbn [snd].
        destruct (patch_fields_raise _ _ _ Hpatch) as [-> | [-> | ->]];
          [do 3 right; now left|do 3 right; now left|right; now left].
  - destruct (requirePermission auth _) as [error|payload] eqn:Hgate.
    + do 3 right. exists "delete:drinks", error. now repeat split.
    + unfold delete_drinks.
      destruct (Db.one_or_none st id) as [[drink|]|];
        [|right; now left|right; right; now left].
      destruct (Db.delete st drink) as [st'|]; [|right; right; now left].
      left. apply jsonify_success.
Qed.

(** ** The further properties at concrete requests *)

Lemma latte_store_ok : store_ok latte_store.
Proof.
  split.
  - change (NoDup [1]). constructor; [intros []|constructor].
  - change (Forall (fun i => i < 2) [1]). repeat constructor.
Defined.

Lemma refused_request_changes_nothing_witness :
  let error := mkAuthError 401 "authorization_header_missing" in
  permission_of (DELETE_drinks 1) = Some "delete:drinks"
  /\ manager_gate None "delete:drinks" = inl error
  /\ handle manager_gate latte_store (mkRequest (DELETE_drinks 1) None JNull)
     = (latte_store,
        mkResponse (status_code error)
          (Some (JObj [("success", JBool false);
                       ("error", JNum (status_code error));
                       ("message", JStr (description error))]))).
Proof.
  intros error. split; [reflexivity|]. split; [reflexivity|].
  exact (refused_request_changes_nothing manager_gate latte_store
           (DELETE_drinks 1) None JNull "delete:drinks" error
           eq_refl eq_refl).
Defined.

Lemma patch_absent_id_is_404_witness :
  manager_gate manager "patch:drinks" = inr (granted "patch:drinks")
  /\ available latte_store = true
  /\ (forall d, In d (rows latte_store) -> Drink.id d <> 7)
  /\ handle manager_gate latte_store
       (mkRequest (PATCH_drinks 7) manager (JNum 0))
     = (latte_store, unprocessable_404).
Proof.
  assert (Habsent : forall d, In d (rows latte_store) -> Drink.id d <> 7)
    by (intros d [<- | []]; vm_compute; discriminate).
  split; [reflexivity|]. split; [reflexivity|]. split; [exact Habsent|].
  exact (patch_absent_id_is_404 manager_gate latte_store manager
           (granted "patch:drinks") 7 (JNum 0) eq_refl eq_refl Habsent).
Defined.

Lemma patch_falsy_body_is_400_witness :
  let drink :=
    Drink.mk 1 (JStr (Json.quote "Latte")) (Json.dumps latte_recipe) in
  manager_gate manager "patch:drinks" = inr (granted "patch:drinks")
  /\ Db.one_or_none latte_store 1 = Ok (Some drink)
  /\ Py.truthy (JObj []) = false
  /\ handle manager_gate latte_store
       (mkRequest (PATCH_drinks 1) manager (JObj []))
     = (latte_store, mkResponse 400 None).
Proof.
  intros drink. split; [reflexivity|]. split; [vm_compute; reflexivity|].
  split; [reflexivity|].
  exact (patch_falsy_body_is_400 manager_gate latte_store manager
           (granted "patch:drinks") 1 drink (JObj []) eq_refl eq_refl eq_refl).
Defined.

Lemma patch_recipe_not_list_is_400_witness :
  let drink :=
    Drink.mk 1 (JStr (Json.quote "Latte")) (Json.dumps latte_recipe) in
  let fields := [("title", JStr "Mocha"); ("recipe", JStr "more milk")] in
  manager_gate manager "patch:drinks" = inr (granted "patch:drinks")
  /\ Db.one_or_none latte_store 1 = Ok (Some drink)
  /\ Py.truthy (field "recipe" fields) = true
  /\ Py.isinstance_list (field "recipe" fields) = false
  /\ handle manager_gate latte_store
       (mkRequest (PATCH_drinks 1) manager (JObj fields))
     = (latte_store, mkResponse 400 None).
Proof.
  intros drink fields. split; [reflexivity|].
  split; [vm_compute; reflexivity|]. split; [reflexivity|].
  split; [reflexivity|].
  exact (patch_recipe_not_list_is_400 manager_gate latte_store manager
           (granted "patch:drinks") 1 drink fields
           eq_refl eq_refl eq_refl eq_refl).
Defined.

Lemma patch_without_fields_is_noop_witness :
  let drink :=
    Drink.mk 1 (JStr (Json.quote "Latte")) (Json.dumps latte_recipe) in
  let fields := [("price", JNum 3); ("title", JNull)] in
  let answer :=
    handle manager_gate latte_store
      (mkRequest (PATCH_drinks 1) manager (JObj fields)) in
  manager_gate manager "patch:drinks" = inr (granted "patch:drinks")
  /\ available latte_store = true
  /\ find (fun d => Drink.id d =? 1) (rows latte_store) = Some drink
  /\ fields <> []
  /\ Py.truthy (field "title" fields) = false
  /\ Py.truthy (field "recipe" fields) = false
  /\ fst answer = latte_store
  /\ status (snd answer) = 200.
Proof.
  intros drink fields answer.
  assert (Hfind : find (fun d => Drink.id d =? 1) (rows latte_store)
                  = Some drink) by (vm_compute; reflexivity).
  assert (Hne : fields <> []) by discriminate.
  split; [reflexivity|]. split; [reflexivity|]. split; [exact Hfind|].
  split; [exact Hne|]. split; [reflexivity|]. split; [reflexivity|].
  exact (patch_without_fields_is_noop manager_gate latte_store manager
           (granted "patch:drinks") 1 drink fields
           eq_refl eq_refl Hfind Hne eq_refl eq_refl).
Defined.


Lemma post_store_failure_is_422_witness :
  let st := mkStore [] 1 false in
  manager_gate manager "post:drinks" = inr (granted "post:drinks")
  /\ available st = false
  /\ check_drink_body latte = Ok true
  /\ handle manager_gate st (mkRequest POST_drinks manager latte)
     = (st, mkResponse 422
              (Some (JObj [("success", JBool false); ("error", JNum 422);
                           ("message", JStr "unprocessable")]))).
Proof.
  intros st. split; [reflexivity|]. split; [reflexivity|].
  split; [reflexivity|].
  exact (post_store_failure_is_422 manager_gate st manager
           (granted "post:drinks") latte eq_refl eq_refl eq_refl).
Defined.

Lemma store_failure_on_lookup_routes_witness :
  let st := mkStore [] 1 false in
  available st = false
  /\ PATCH_drinks 1 <> POST_drinks
  /\ permission_of (PATCH_drinks 1) = Some "patch:drinks"
  /\ manager_gate manager "patch:drinks" = inr (granted "patch:drinks")
  /\ handle manager_gate st (mkRequest (PATCH_drinks 1) manager latte)
     = (st, server_error).
Proof.
  intros st.
  assert (Hroute : PATCH_drinks 1 <> POST_drinks) by discriminate.
  split; [reflexivity|]. split; [exact Hroute|]. split; [reflexivity|].
  split; [reflexivity|].
  exact (store_failure_on_lookup_routes manager_gate st (PATCH_drinks 1)
           manager (granted "patch:drinks") latte "patch:drinks"
           eq_refl Hroute eq_refl eq_refl).
Defined.

Lemma delete_existing_drink_witness :
  let drink :=
    Drink.mk 1 (JStr (Json.quote "Latte")) (Json.dumps latte_recipe) in
  let request := mkRequest (DELETE_drinks 1) manager JNull in
  let st' := mkStore (Db.remove_row (rows latte_store) drink)
               (next_id latte_store) true in
  manager_gate manager "delete:drinks" = inr (granted "delete:drinks")
  /\ available latte_store = true
  /\ find (fun d => Drink.id d =? 1) (rows latte_store) = Some drink
  /\ NoDup (ids latte_store)
  /\ handle manager_gate latte_store request
     = (st', mkResponse 200
               (Some (JObj [("success", JBool true); ("delete", JNum 1)])))
  /\ Db.one_or_none st' 1 = Ok None
  /\ (forall id', id' <> 1 ->
      Db.one_or_none st' id' = Db.one_or_none latte_store id')
  /\ handle manager_gate st' request = (st', unprocessable_404).
Proof.
  intros drink request st'.
  assert (Hfind : find (fun d => Drink.id d =? 1) (rows latte_store)
                  = Some drink) by (vm_compute; reflexivity).
  split; [reflexivity|]. split; [reflexivity|]. split; [exact Hfind|].
  split; [exact (proj1 latte_store_ok)|].
  exact (delete_existing_drink manager_gate latte_store manager
           (granted "delete:drinks") 1 drink JNull
           eq_refl eq_refl Hfind (proj1 latte_store_ok)).
Defined.

Lemma requests_keep_store_ok_witness :
  store_ok latte_store
  /\ store_ok (fst (handle manager_gate latte_store
                      (mkRequest POST_drinks manager latte))).
Proof.
  split; [exact latte_store_ok|].
  exact (requests_keep_store_ok manager_gate latte_store
           (mkRequest POST_drinks manager latte) latte_store_ok).
Defined.

Lemma post_then_delete_restores_rows_witness :
  let posted :=
    fst (handle manager_gate latte_store
           (mkRequest POST_drinks manager latte)) in
  let answer :=
    handle manager_gate posted
      (mkRequest (DELETE_drinks (next_id latte_store)) manager JNull) in
  manager_gate manager "post:drinks" = inr (granted "post:drinks")
  /\ manager_gate manager "delete:drinks" = inr (granted "delete:drinks")
  /\ available latte_store = true
  /\ store_ok latte_store
  /\ check_drink_body latte = Ok true
  /\ rows (fst answer) = rows latte_store
  /\ next_id (fst answer) = next_id latte_store + 1
  /\ snd answer
     = mkResponse 200
         (Some (JObj [("success", JBool true);
                      ("delete", JNum (next_id latte_store))])).
Proof.
  intros posted answer.
  split; [reflexivity|]. split; [reflexivity|]. split; [reflexivity|].
  split; [exact latte_store_ok|]. split; [reflexivity|].
  exact (post_then_delete_restores_rows manager_gate latte_store manager
           (granted "post:drinks") manager (granted "delete:drinks")
           latte JNull eq_refl eq_refl eq_refl latte_store_ok eq_refl).
Defined.


Lemma first_failing_step_decides_witness :
  let good := JObj [("color", JStr "white"); ("name", JStr "milk");
                    ("parts", JNum 3)] in
  let bad := JObj [("color", JStr "brown"); ("name", JStr "coffee");
                   ("parts", JStr "a lot")] in
  check_recipe_steps [good] = Ok true
  /\ check_recipe_steps [bad] <> Ok true
  /\ check_recipe_steps ([good] ++ bad :: [JNum 1]) = check_recipe_steps [bad]
  /\ check_recipe_steps [bad] = Ok false
  /\ check_recipe_steps [JNum 1] = Raise AttributeError.
Proof.
  intros good bad.
  assert (Hbad : check_recipe_steps [bad] <> Ok true) by discriminate.
  split; [reflexivity|]. split; [exact Hbad|].
  split; [|split; reflexivity].
  exact (first_failing_step_decides [good] bad [JNum 1] eq_refl Hbad).
Defined.


Lemma stored_recipe_decodes_witness :
  let steps := [JObj [("color", JStr "white"); ("name", JStr "milk");
                      ("parts", JNum 3)]] in
  manager_gate manager "post:drinks" = inr (granted "post:drinks")
  /\ available empty_store = true
  /\ well_formed (JObj latte_fields) = true
  /\ Py.lookup "recipe" latte_fields = Some (JList steps)
  /\ check_recipe_steps steps = Ok true
  /\ exists drink,
       rows (fst (handle manager_gate empty_store
                    (mkRequest POST_drinks manager (JObj latte_fields))))
       = (rows empty_store ++ [drink])%list
       /\ Drink.id drink = next_id empty_store
       /\ Drink.decode (Drink.recipe drink) = Ok steps.
Proof.
  intros steps.
  split; [reflexivity|]. split; [reflexivity|]. split; [reflexivity|].
  split; [reflexivity|]. split; [reflexivity|].
  exact (stored_recipe_decodes manager_gate empty_store manager
           (granted "post:drinks") latte_fields steps
           eq_refl eq_refl eq_refl eq_refl eq_refl).
Defined.
